(** * FAD: sentiment scoring, aggregation and risk decision

    A shallow embedding of [modules/sentiment_analyzer.py], of the labelling
    and risk expressions of [main.py] / [update_to_main.py] and of the
    constants of [config.py].

    Modelling conventions.
    - Python floats are exact rationals ([Q]); equalities between computed
      numbers are stated with [==].
    - A Python call either returns a value or raises: [outcome].
    - A pandas DataFrame is a list of rows together with the list of the
      column labels it carries; [df[c]] raises [KeyError] when [c] is not
      one of them.  The index is taken to be unique, as it is for every
      frame built by the routes.
    - Strings are byte strings; [str.lower] acts on the ASCII letters. *)

From Stdlib Require Import ZArith QArith Qminmax List String Ascii Bool Lia.
From Stdlib Require Import Lqa Permutation.
Import ListNotations.

Open Scope string_scope.
Open Scope Q_scope.

(** ** Outcomes of Python calls *)

Inductive exn : Type :=
| KeyError (key : string)
| ZeroDivisionError
| ValueError (msg : string).
(* [ValueError] is what a parameter check would raise; no function below
   raises it. *)

Inductive outcome (A : Type) : Type :=
| Returns (a : A)
| Raises (e : exn).

Arguments Returns {A} a.
Arguments Raises {A} e.

Definition bind {A B : Type} (m : outcome A) (k : A -> outcome B) : outcome B :=
  match m with
  | Returns a => k a
  | Raises e => Raises e
  end.

Notation "x <- m ;; k" := (bind m (fun x => k))
  (at level 61, m at next level, right associativity).

(** [try: body / except Exception: handler]. *)
Definition try_except {A : Type} (body : outcome A) (handler : exn -> outcome A)
  : outcome A :=
  match body with
  | Returns a => Returns a
  | Raises e => handler e
  end.

(** ** Numbers *)

(** [x > y] on floats. *)
Definition Qgt_bool (x y : Q) : bool := negb (Qle_bool x y).

(** True division [x / y]. *)
Definition py_div (x y : Q) : outcome Q :=
  if Qeq_bool y 0 then Raises ZeroDivisionError else Returns (x / y).

(** The builtin [min(a, b)]: [b] only when it is strictly smaller. *)
Definition py_min (a b : Q) : Q := if Qgt_bool a b then b else a.

(** ** Python objects held in the cells of a frame *)

Inductive pyobj : Type :=
| PyNone
| PyNaN
| PyStr (s : string)
| PyOther (repr : string).
(* [PyOther r]: an object that is neither a string nor null (a number, a
   timestamp), kept with its [str()] rendering [r]. *)

Definition py_str (o : pyobj) : string :=
  match o with
  | PyNone => "None"
  | PyNaN => "nan"
  | PyStr s => s
  | PyOther r => r
  end.

Definition py_str_eqb (o : pyobj) (s : string) : bool :=
  match o with
  | PyStr t => String.eqb t s
  | _ => false
  end.

(** ** Strings *)

Definition lower_ascii (c : ascii) : ascii :=
  let n := nat_of_ascii c in
  if (Nat.leb 65 n && Nat.leb n 90)%bool then ascii_of_nat (n + 32) else c.

Fixpoint lower (s : string) : string :=
  match s with
  | EmptyString => EmptyString
  | String c t => String (lower_ascii c) (lower t)
  end.

(** [needle in hay]. *)
Fixpoint contains (needle hay : string) : bool :=
  (String.prefix needle hay ||
   match hay with
   | EmptyString => false
   | String _ t => contains needle t
   end)%bool.

(** ** config.py *)

Module Config.
Definition DEFAULT_FRAUD_THRESHOLD : Q := 30.0.
Definition POSITIVE_THRESHOLD : Q := 0.1.
Definition NEGATIVE_THRESHOLD : Q := -0.1.
Definition RISK_WARNING_SHORT : string :=
  "Strong indicators of potential risk identified".
End Config.

(** ** DataFrames *)

Record Row : Type := mkRow {
  content : pyobj;
  polarity : Q;
  sentiment : pyobj;
  score : pyobj;
  at_ : pyobj
}.

Record DataFrame : Type := mkDataFrame {
  columns : list string;
  rows : list Row
}.

Definition has_column (c : string) (df : DataFrame) : bool :=
  existsb (String.eqb c) (columns df).

(** [len(df)] *)
Definition len (df : DataFrame) : Z := Z.of_nat (List.length (rows df)).

(** [df.empty]: some axis has length zero. *)
Definition empty (df : DataFrame) : bool :=
  match rows df, columns df with
  | [], _ => true
  | _, [] => true
  | _, _ => false
  end.

(** [df[c]], for the column [c] stored in the field [field]. *)
Definition getitem {A : Type} (df : DataFrame) (c : string) (field : Row -> A)
  : outcome (list A) :=
  if has_column c df then Returns (map field (rows df)) else Raises (KeyError c).

(** [series.fillna('')] *)
Definition fillna_empty (o : pyobj) : pyobj :=
  match o with
  | PyNone | PyNaN => PyStr ""
  | _ => o
  end.

(** [series.value_counts().get(label, 0)] *)
Definition value_counts_get (series : list pyobj) (label : string) : Z :=
  Z.of_nat (List.length (filter (fun o => py_str_eqb o label) series)).

(** [row.get(c, default)] on a row of [df]. *)
Definition row_get (df : DataFrame) (c : string) (field : Row -> pyobj)
  (default : pyobj) (r : Row) : pyobj :=
  if has_column c df then field r else default.

(** ** modules/sentiment_analyzer.py *)

Definition NEGATIVE_KEYWORDS : list string :=
  [ "scam"; "scum"; "useless"; "fraud"; "fake"; "deceptive"; "ripoff";
    "unresponsive"; "broken"; "glitch"; "buggy"; "crash"; "malware";
    "phishing"; "steal"; "stolen"; "lie"; "lying"; "cheat"; "cheating";
    "misleading"; "unreliable"; "waste of time"; "terrible"; "horrible";
    "worst"; "bad experience"; "do not install"; "uninstall"; "delete";
    "warning"; "beware"; "deceitful"; "untrustworthy" ].

(** The app-details dictionary, as far as the aggregation reads it:
    [ad_score = None] stands for a missing ['score'] key or a null value
    (an empty dictionary has no score either). *)
Record AppDetails : Type := mkAppDetails {
  ad_title : string;
  ad_score : option Q
}.

(** The tuple returned by [calculate_sentiment_metrics]; the counts series
    is kept through its [get(label, 0)] view. *)
Record SentimentMetrics : Type := mkSentimentMetrics {
  sentiment_counts : string -> Z;
  positive_pct : Q;
  negative_pct : Q;
  neutral_pct : Q;
  app_rating_score : Q;
  playstore_score : Q
}.

(** [(count / total_reviews) * 100 if total_reviews > 0 else 0] *)
Definition pct_of (count total_reviews : Z) : outcome Q :=
  if (0 <? total_reviews)%Z then
    q <- py_div (inject_Z count) (inject_Z total_reviews) ;;
    Returns (q * 100)
  else Returns 0.

Definition playstore_score_of (app_details : option AppDetails) : Q :=
  match app_details with
  | Some d =>
      match ad_score d with
      | Some s => s * 20
      | None => 0
      end
  | None => 0
  end.

Definition calculate_sentiment_metrics
  (filtered_df : DataFrame) (app_details : option AppDetails)
  : outcome SentimentMetrics :=
  series <- getitem filtered_df "sentiment" sentiment ;;
  let sentiment_counts := value_counts_get series in
  let total_reviews := len filtered_df in
  positive_pct <- pct_of (sentiment_counts "Positive") total_reviews ;;
  negative_pct <- pct_of (sentiment_counts "Negative") total_reviews ;;
  neutral_pct <- pct_of (sentiment_counts "Neutral") total_reviews ;;
  let playstore_score := playstore_score_of app_details in
  let total_sentiment_reviews :=
    (sentiment_counts "Positive" + sentiment_counts "Negative"
     + sentiment_counts "Neutral")%Z in
  app_rating_score <-
    (if (0 <? total_sentiment_reviews)%Z then
       credit <-
         (if Qgt_bool (positive_pct + negative_pct) 0 then
            ratio <- py_div positive_pct (positive_pct + negative_pct) ;;
            Returns (neutral_pct * ratio)
          else Returns 0) ;;
       let pos_score_calc := positive_pct + credit in
       Returns (py_min 100 pos_score_calc)
     else Returns 0) ;;
  Returns (mkSentimentMetrics sentiment_counts positive_pct negative_pct
             neutral_pct app_rating_score playstore_score).

(** The weak ground truth of [compute_classification_metrics]. *)
Definition gt_negative (text : pyobj) : bool :=
  match text with
  | PyStr s =>
      let lower := lower s in
      existsb (fun k => contains k lower) NEGATIVE_KEYWORDS
  | _ => false
  end.

(** Boolean series: [a & b], [~a], [a.sum()], and [df[mask]]. *)
Definition mask_and (a b : list bool) : list bool :=
  map (fun p => (fst p && snd p)%bool) (combine a b).

Definition mask_not (a : list bool) : list bool := map negb a.

Definition mask_sum (a : list bool) : Z :=
  Z.of_nat (List.length (filter (fun b => b) a)).

Definition boolean_index (rs : list Row) (mask : list bool) : list Row :=
  map fst (filter snd (combine rs mask)).

(** [frame.head(n)]: the first [n] rows, or all but the last [-n] ones. *)
Definition head {A : Type} (n : Z) (l : list A) : list A :=
  if (0 <=? n)%Z then firstn (Z.to_nat n) l
  else firstn (List.length l - Z.to_nat (- n)) l.

Record Example : Type := mkExample {
  ex_content : string;
  ex_predicted : string;
  ex_contains_negative_keyword : bool;
  ex_score : pyobj;
  ex_at : pyobj
}.

Record Confusion : Type := mkConfusion { tp : Z; tn : Z; fp : Z; fn : Z }.

Record Examples : Type := mkExamples {
  examples_tp : list Example;
  examples_tn : list Example;
  examples_fp : list Example;
  examples_fn : list Example
}.

Record ClassificationReport : Type := mkClassificationReport {
  accuracy : Q;
  precision : Q;
  recall : Q;
  f1 : Q;
  confusion : Confusion;
  examples : Examples
}.

Definition zero_report : ClassificationReport :=
  mkClassificationReport 0 0 0 0 (mkConfusion 0 0 0 0) (mkExamples [] [] [] []).

(** [num / den if den > 0 else 0.0] on integer counts. *)
Definition ratio_of (num den : Z) : outcome Q :=
  if (0 <? den)%Z then py_div (inject_Z num) (inject_Z den) else Returns 0.

Definition example_of (df : DataFrame) (row : Row) : Example :=
  mkExample
    (py_str (row_get df "content" content (PyStr "") row))
    (py_str (row_get df "sentiment" sentiment (PyStr "") row))
    (gt_negative (row_get df "content" content (PyStr "") row))
    (row_get df "score" score PyNone row)
    (row_get df "at" at_ PyNone row).

Definition examples_for (df : DataFrame) (sample_each : Z) (mask : list bool)
  : list Example :=
  map (example_of df) (head sample_each (boolean_index (rows df) mask)).

Definition classification_body (filtered_df : option DataFrame) (sample_each : Z)
  : outcome ClassificationReport :=
  match filtered_df with
  | None => Returns zero_report
  | Some df =>
      if empty df then Returns zero_report
      else
        contents <- getitem df "content" content ;;
        let y_true := map gt_negative (map fillna_empty contents) in
        sentiments <- getitem df "sentiment" sentiment ;;
        let y_pred :=
          map (fun s => py_str_eqb s "Negative") (map fillna_empty sentiments) in
        let tp_mask := mask_and y_true y_pred in
        let tn_mask := mask_and (mask_not y_true) (mask_not y_pred) in
        let fp_mask := mask_and (mask_not y_true) y_pred in
        let fn_mask := mask_and y_true (mask_not y_pred) in
        let tp := mask_sum tp_mask in
        let tn := mask_sum tn_mask in
        let fp := mask_sum fp_mask in
        let fn := mask_sum fn_mask in
        let total := (tp + tn + fp + fn)%Z in
        accuracy <- ratio_of (tp + tn) total ;;
        precision <- ratio_of tp (tp + fp) ;;
        recall <- ratio_of tp (tp + fn) ;;
        f1 <-
          (if Qgt_bool (precision + recall) 0
           then py_div (2 * precision * recall) (precision + recall)
           else Returns 0) ;;
        let examples :=
          mkExamples (examples_for df sample_each tp_mask)
                     (examples_for df sample_each tn_mask)
                     (examples_for df sample_each fp_mask)
                     (examples_for df sample_each fn_mask) in
        Returns (mkClassificationReport accuracy precision recall f1
                   (mkConfusion tp tn fp fn) examples)
  end.

(** The whole body runs under [try: ... except Exception:], whose handler
    returns the zero report. *)
Definition compute_classification_metrics
  (filtered_df : option DataFrame) (sample_each : Z)
  : outcome ClassificationReport :=
  try_except (classification_body filtered_df sample_each)
             (fun _ => Returns zero_report).

(** ** main.py: labelling and threshold handling *)

(** The labelling lambda of [analyze_direct], its two thresholds taken as
    arguments. *)
Definition label (p positive_threshold negative_threshold : Q) : string :=
  if Qgt_bool p positive_threshold then "Positive"
  else if Qgt_bool negative_threshold p then "Negative"
  else "Neutral".

(** The lambda as written, on the configured thresholds. *)
Definition label_default (p : Q) : string :=
  label p Config.POSITIVE_THRESHOLD Config.NEGATIVE_THRESHOLD.

(** Neither expression has a sub-expression that can raise on floats. *)
Definition label_call (p positive_threshold negative_threshold : Q)
  : outcome string :=
  Returns (label p positive_threshold negative_threshold).

Definition py_max (a b : Q) : Q := if Qgt_bool b a then b else a.

(** [search_apps_route]: [max(1.0, min(fraud_threshold, 100.0))] is what
    the session keeps as [last_fraud_threshold]. *)
Definition stored_fraud_threshold (fraud_threshold : Q) : Q :=
  py_max 1.0 (py_min fraud_threshold 100.0).

(** [df[c] = ...] adds the label [c] when the frame does not have it. *)
Definition with_column (c : string) (cols : list string) : list string :=
  if existsb (String.eqb c) cols then cols else cols ++ [c].

Section Collaborators.

(** [TextBlob(text).sentiment.polarity], an external model. *)
Variable TextBlob_polarity : string -> Q.

(** [RISK_WARNING_SHORT] as the routes import it from
    [modules.report_generator]. *)
Variable RISK_WARNING_SHORT : string.

Definition analyze_sentiment (text : pyobj) : Q :=
  match text with
  | PyStr s =>
      let lower_text := lower s in
      if existsb (fun keyword => contains keyword lower_text) NEGATIVE_KEYWORDS
      then -0.8
      else TextBlob_polarity s
  | _ => 0
  end.

(** [analyze_direct], lines 253-257: the polarity and sentiment columns. *)
Definition label_row (r : Row) : Row :=
  let p := analyze_sentiment (content r) in
  mkRow (content r) p (PyStr (label_default p)) (score r) (at_ r).

Definition label_reviews (df : DataFrame) : DataFrame :=
  if (has_column "content" df && negb (empty df))%bool then
    mkDataFrame (with_column "sentiment" (with_column "polarity" (columns df)))
                (map label_row (rows df))
  else df.

(** The same step in update_to_main.py, whose [else] branch fills both
    columns with constants. *)
Definition neutral_row (r : Row) : Row :=
  mkRow (content r) 0 (PyStr "Neutral") (score r) (at_ r).

Definition label_reviews_update (df : DataFrame) : DataFrame :=
  if (has_column "content" df && negb (empty df))%bool then
    mkDataFrame (with_column "sentiment" (with_column "polarity" (columns df)))
                (map label_row (rows df))
  else
    mkDataFrame (with_column "sentiment" (with_column "polarity" (columns df)))
                (map neutral_row (rows df)).

(** [analyze_direct] of main.py: [risk_detected] and [risk_message]. *)
Definition assess_risk (negative_pct fraud_threshold : Q) : bool * string :=
  (Qgt_bool negative_pct fraud_threshold,
   if Qgt_bool negative_pct fraud_threshold
   then RISK_WARNING_SHORT else "No risk indicators").

(** The same pair in [result_data] of update_to_main.py. *)
Definition assess_risk_update (negative_pct fraud_threshold : Q) : bool * string :=
  (Qgt_bool negative_pct fraud_threshold,
   if Qgt_bool negative_pct fraud_threshold
   then RISK_WARNING_SHORT else "No significant risk indicators found").

Definition assess_risk_call (negative_pct fraud_threshold : Q)
  : outcome (bool * string) :=
  Returns (assess_risk negative_pct fraud_threshold).

(** A row whose label was computed from its own text. *)
Definition derived_label (r : Row) : Prop :=
  sentiment r = PyStr (label_default (analyze_sentiment (content r))).

End Collaborators.

(** ** Closed forms used to state the properties *)

(** The values computed by [calculate_sentiment_metrics]. *)
Definition pct_value (count total_reviews : Z) : Q :=
  if (0 <? total_reviews)%Z
  then inject_Z count / inject_Z total_reviews * 100 else 0.

Definition rating_value (P N U : Q) (total_sentiment_reviews : Z) : Q :=
  if (0 <? total_sentiment_reviews)%Z then
    py_min 100 (P + (if Qgt_bool (P + N) 0 then U * (P / (P + N)) else 0))
  else 0.

(** A review is labelled when its sentiment cell is one of the three labels. *)
Definition is_sentiment_label (o : pyobj) : bool :=
  (py_str_eqb o "Positive" || py_str_eqb o "Negative" || py_str_eqb o "Neutral")%bool.

Definition labeled_collection (df : DataFrame) : Prop :=
  has_column "sentiment" df = true /\
  Forall (fun r => is_sentiment_label (sentiment r) = true) (rows df).

(** The two boolean series and the four masks, row by row. *)
Definition row_truth (r : Row) : bool := gt_negative (fillna_empty (content r)).

Definition row_predicted (r : Row) : bool :=
  py_str_eqb (fillna_empty (sentiment r)) "Negative".

Definition cell_tp (r : Row) : bool := (row_truth r && row_predicted r)%bool.
Definition cell_tn (r : Row) : bool := (negb (row_truth r) && negb (row_predicted r))%bool.
Definition cell_fp (r : Row) : bool := (negb (row_truth r) && row_predicted r)%bool.
Definition cell_fn (r : Row) : bool := (row_truth r && negb (row_predicted r))%bool.

Definition count_cell (cell : Row -> bool) (df : DataFrame) : Z :=
  Z.of_nat (List.length (filter cell (rows df))).

Definition ratio_value (num den : Z) : Q :=
  if (0 <? den)%Z then inject_Z num / inject_Z den else 0.

Definition f1_value (p r : Q) : Q :=
  if Qgt_bool (p + r) 0 then 2 * p * r / (p + r) else 0.

Definition sample_of (df : DataFrame) (sample_each : Z) (cell : Row -> bool)
  : list Example :=
  map (example_of df) (head sample_each (filter cell (rows df))).

Definition report_value (df : DataFrame) (sample_each : Z) : ClassificationReport :=
  let tp := count_cell cell_tp df in
  let tn := count_cell cell_tn df in
  let fp := count_cell cell_fp df in
  let fn := count_cell cell_fn df in
  let p := ratio_value tp (tp + fp) in
  let r := ratio_value tp (tp + fn) in
  mkClassificationReport
    (ratio_value (tp + tn) (tp + tn + fp + fn)) p r (f1_value p r)
    (mkConfusion tp tn fp fn)
    (mkExamples (sample_of df sample_each cell_tp) (sample_of df sample_each cell_tn)
                (sample_of df sample_each cell_fp) (sample_of df sample_each cell_fn)).

Definition confusion_total (c : Confusion) : Z := (tp c + tn c + fp c + fn c)%Z.

(** The default of the [sample_each] argument. *)
Definition DEFAULT_SAMPLE_EACH : Z := 5.

(** ** Sample data *)

Definition sample_polarity (s : string) : Q :=
  if String.eqb s "Great app, love it" then 0.8 else 0.

Definition review (text : string) : Row :=
  mkRow (PyStr text) 0 PyNone (PyOther "5") (PyOther "2025-01-01").

Definition sample_reviews : DataFrame :=
  mkDataFrame ["content"; "score"; "thumbsUpCount"; "at"]
    [ review "This app is a scam"; review "Great app, love it";
      review "It's okay I guess" ].

Definition sample_labeled : DataFrame := label_reviews sample_polarity sample_reviews.

Definition empty_labeled : DataFrame :=
  mkDataFrame ["content"; "score"; "thumbsUpCount"; "at"; "polarity"; "sentiment"] [].

Definition sample_details : AppDetails := mkAppDetails "Sample" (Some 4.5).

(** The frame both routes build when no review was fetched. *)
Definition no_reviews : DataFrame :=
  mkDataFrame ["content"; "score"; "thumbsUpCount"; "at"] [].

(** ** modules/sentiment_analyzer.py: colours and keyword listing *)

Definition get_score_color (score threshold : Q) : string :=
  if Qgt_bool score threshold then "danger"
  else if Qgt_bool score (threshold * 0.7) then "warning"
  else "success".

Definition detect_risk_keywords (text : pyobj) : list string :=
  match text with
  | PyStr s =>
      let lower_text := lower s in
      filter (fun keyword => contains keyword lower_text) NEGATIVE_KEYWORDS
  | _ => []
  end.

(** How alarming a colour class is. *)
Definition severity (color : string) : nat :=
  if String.eqb color "danger" then 2
  else if String.eqb color "warning" then 1 else 0.

(** ** main.py: [extract_app_id] *)

(** The character class [[a-zA-Z0-9._]]. *)
Definition is_id_char (c : ascii) : bool :=
  let n := nat_of_ascii c in
  ((Nat.leb 97 n && Nat.leb n 122) || (Nat.leb 65 n && Nat.leb n 90)
   || (Nat.leb 48 n && Nat.leb n 57) || Nat.eqb n 46 || Nat.eqb n 95)%bool.

(** The longest run of class characters at the head of [s], and what
    follows it: the greedy [([a-zA-Z0-9._]+)]. *)
Fixpoint take_id (s : string) : string :=
  match s with
  | EmptyString => EmptyString
  | String c t => if is_id_char c then String c (take_id t) else EmptyString
  end.

Fixpoint drop_id (s : string) : string :=
  match s with
  | EmptyString => EmptyString
  | String c t => if is_id_char c then drop_id t else s
  end.

(** [s] without the literal [m] at its head, when it starts with it. *)
Fixpoint strip_prefix (m s : string) : option string :=
  match m with
  | EmptyString => Some s
  | String a m' =>
      match s with
      | EmptyString => None
      | String b s' => if Ascii.eqb a b then strip_prefix m' s' else None
      end
  end.

(** A match of [marker([a-zA-Z0-9._]+)] starting at the head of [s]. *)
Definition group_here (marker s : string) : option string :=
  match strip_prefix marker s with
  | Some rest =>
      match take_id rest with
      | EmptyString => None
      | run => Some run
      end
  | None => None
  end.

(** [re.search(marker + '([a-zA-Z0-9._]+)', s)]: group 1 of the leftmost
    match. *)
Fixpoint search_group (marker s : string) : option string :=
  match group_here marker s with
  | Some g => Some g
  | None =>
      match s with
      | EmptyString => None
      | String _ t => search_group marker t
      end
  end.

Definition newline : string := String (ascii_of_nat 10) EmptyString.

(** Where [$] matches: at the end, or before a final newline. *)
Definition at_end (s : string) : bool :=
  (String.eqb s EmptyString || String.eqb s newline)%bool.

(** A match of [/([a-zA-Z0-9._]+)/?$] starting at the head of [s]. *)
Definition segment_here (s : string) : option string :=
  match strip_prefix "/" s with
  | Some rest =>
      match take_id rest with
      | EmptyString => None
      | run =>
          let tail := drop_id rest in
          if (at_end tail ||
              match strip_prefix "/" tail with
              | Some after => at_end after
              | None => false
              end)%bool
          then Some run else None
      end
  | None => None
  end.

Fixpoint search_segment (s : string) : option string :=
  match segment_here s with
  | Some g => Some g
  | None =>
      match s with
      | EmptyString => None
      | String _ t => search_segment t
      end
  end.

Definition extract_app_id (app_input : string) : string :=
  match (if contains "play.google.com" app_input
         then search_group "id=" app_input else None) with
  | Some g => g
  | None =>
      if (contains "." app_input && negb (contains " " app_input))%bool
      then app_input
      else
        match search_segment app_input with
        | Some g => g
        | None =>
            match search_group "=" app_input with
            | Some g => g
            | None => app_input
            end
        end
  end.

(** [search_apps_route]: the test that sends a query straight to the
    details lookup. *)
Definition looks_like_app_id (query : string) : bool :=
  (contains "." query && negb (contains " " query)
   && String.eqb (extract_app_id query) query)%bool.

(** [search_apps_route]: the review count it parses and the one it stores;
    [None] is a field that [int] rejects. *)
Definition MAX_REVIEWS_DEFAULT : Z := 200.

Definition parsed_max_reviews (field : option Z) : Z :=
  match field with
  | Some n => n
  | None => MAX_REVIEWS_DEFAULT
  end.

Definition stored_max_reviews (max_reviews : Z) : Z :=
  Z.max 10 (Z.min max_reviews 1000).

(** ** main.py: the comparison list kept in the session *)

(** An entry keeps the identifier and the fields read from the details
    record, carried here as the record. *)
Record CompareEntry : Type := mkCompareEntry {
  ce_app_id : string;
  ce_details : AppDetails
}.

Inductive redirect : Type := ToIndex | ToCompare.

(** [add_to_compare]: [compare_apps] is the session entry, [None] when the
    key is absent; [app_details] is what the details lookup returned. *)
Definition add_to_compare (compare_apps : option (list CompareEntry))
  (app_id : string) (app_details : option AppDetails)
  : option (list CompareEntry) * redirect :=
  match app_details with
  | None => (compare_apps, ToIndex)
  | Some d =>
      let apps := match compare_apps with Some l => l | None => [] end in
      let app_exists :=
        existsb (fun app => String.eqb (ce_app_id app) app_id) apps in
      let apps' :=
        if negb app_exists then
          if (Nat.ltb (List.length apps) 2)
          then (apps ++ [mkCompareEntry app_id d])%list
          else apps
        else apps in
      (Some apps',
       if Nat.eqb (List.length apps') 2 then ToCompare else ToIndex)
  end.

(** [list.pop(index)] for an index in range. *)
Definition pop_at {A : Type} (index : nat) (l : list A) : list A :=
  (firstn index l ++ skipn (S index) l)%list.

(** [remove_from_compare] of update_to_main.py. *)
Definition remove_from_compare (compare_apps : option (list CompareEntry))
  (index : Z) : option (list CompareEntry) :=
  match compare_apps with
  | Some l =>
      if ((0 <=? index)%Z && (index <? Z.of_nat (List.length l))%Z)%bool
      then Some (pop_at (Z.to_nat index) l)
      else Some l
  | None => None
  end.

(** One request on the comparison list. *)
Inductive compare_request : Type :=
| Add (app_id : string) (app_details : option AppDetails)
| Remove (index : Z).

Definition compare_step (s : option (list CompareEntry)) (r : compare_request)
  : option (list CompareEntry) :=
  match r with
  | Add app_id app_details => fst (add_to_compare s app_id app_details)
  | Remove index => remove_from_compare s index
  end.

(** The list of a session, absent or not. *)
Definition compare_list (s : option (list CompareEntry)) : list CompareEntry :=
  match s with Some l => l | None => [] end.

(** ** main.py: [get_sentiment_metrics_for_comparison] *)

Record ComparisonMetrics : Type := mkComparisonMetrics {
  cm_total : Z;
  cm_positive_pct : Q;
  cm_negative_pct : Q;
  cm_neutral_pct : Q;
  cm_app_rating_score : Q
}.

Definition zero_comparison : ComparisonMetrics := mkComparisonMetrics 0 0 0 0 0.

Section Comparison.

Variable TextBlob_polarity : string -> Q.

(** The two column assignments, with the thresholds written as literals. *)
Definition comparison_row (r : Row) : Row :=
  let p := analyze_sentiment TextBlob_polarity (content r) in
  mkRow (content r) p (PyStr (label p 0.1 (-0.1))) (score r) (at_ r).

(** [fetched] is [pd.DataFrame(reviews)]; it has no row exactly when
    [reviews] is empty. *)
Definition comparison_body (fetched : DataFrame) : outcome ComparisonMetrics :=
  match rows fetched with
  | [] => Returns zero_comparison
  | _ :: _ =>
      _contents <- getitem fetched "content" content ;;
      let df :=
        mkDataFrame
          (with_column "sentiment" (with_column "polarity" (columns fetched)))
          (map comparison_row (rows fetched)) in
      let '(pos, neg, neu, rating) :=
        match calculate_sentiment_metrics df None with
        | Returns m =>
            (positive_pct m, negative_pct m, neutral_pct m, app_rating_score m)
        | Raises _ => (0, 0, 0, 0)
        end in
      Returns (mkComparisonMetrics (len df) pos neg neu rating)
  end.

Definition get_sentiment_metrics_for_comparison (fetched : DataFrame)
  : outcome ComparisonMetrics :=
  try_except (comparison_body fetched) (fun _ => Returns zero_comparison).

End Comparison.

(** ** Predicates used to state further properties *)

(** Every character of [s] is in the class [[a-zA-Z0-9._]]. *)
Fixpoint all_id (s : string) : bool :=
  match s with
  | EmptyString => true
  | String c t => (is_id_char c && all_id t)%bool
  end.

(** The session states the comparison routes can produce, starting from a
    session without the key. *)
Inductive compare_reachable : option (list CompareEntry) -> Prop :=
| reach_init : compare_reachable None
| reach_step (s : option (list CompareEntry)) (r : compare_request) :
    compare_reachable s -> compare_reachable (compare_step s r).

(** What the comparison routes keep true of the session. *)
Definition compare_invariant (s : option (list CompareEntry)) : Prop :=
  (List.length (compare_list s) <= 2)%nat /\
  NoDup (map ce_app_id (compare_list s)).

(** ** Further sample data *)

Definition sample_sorted : DataFrame :=
  mkDataFrame (columns sample_labeled) (rev (rows sample_labeled)).

Definition cheerful_labeled : DataFrame :=
  mkDataFrame ["content"; "sentiment"]
    [ mkRow (PyStr "Great app, love it") 0.8 (PyStr "Positive") PyNone PyNone;
      mkRow (PyStr "It's okay I guess") 0 (PyStr "Neutral") PyNone PyNone ].

Definition flagged_reviews : DataFrame :=
  mkDataFrame ["content"; "score"]
    [ review "This app is a scam"; review "FRAUD, do not install" ].

Definition unscored_reviews : DataFrame :=
  mkDataFrame ["score"; "at"] [ review "Great app, love it" ].

Definition sample_session : option (list CompareEntry) :=
  compare_step (compare_step None (Add "com.first.app" (Some sample_details)))
               (Add "com.second.app" (Some sample_details)).

(** * Properties *)

(** ** Comparisons and division *)

Lemma Returns_inj {A : Type} (a b : A) : Returns a = Returns b -> a = b.
Proof. intros H. injection H as H. exact H. Qed.

Lemma Qgt_bool_true (x y : Q) : Qgt_bool x y = true <-> y < x.
Proof.
  unfold Qgt_bool. rewrite negb_true_iff. split.
  - intros H. apply Qnot_le_lt. intro Hle.
    apply Qle_bool_iff in Hle. congruence.
  - intros H. destruct (Qle_bool x y) eqn:E; [|reflexivity].
    apply Qle_bool_iff in E. exfalso. exact (Qlt_not_le _ _ H E).
Qed.

Lemma Qgt_bool_false (x y : Q) : Qgt_bool x y = false <-> x <= y.
Proof. unfold Qgt_bool. rewrite negb_false_iff. apply Qle_bool_iff. Qed.

Lemma py_div_returns (x y : Q) : ~ y == 0 -> py_div x y = Returns (x / y).
Proof.
  intros Hy. unfold py_div. destruct (Qeq_bool y 0) eqn:E; [|reflexivity].
  apply Qeq_bool_eq in E. contradiction.
Qed.

Lemma inject_Z_pos_nonzero (t : Z) : (0 < t)%Z -> ~ inject_Z t == 0.
Proof. intros Ht E. unfold Qeq in E. simpl in E. lia. Qed.

Lemma inject_Z_nonneg (t : Z) : (0 <= t)%Z -> 0 <= inject_Z t.
Proof. intros Ht. unfold Qle. simpl. lia. Qed.

Lemma Qdiv_nonneg (a b : Q) : 0 <= a -> 0 < b -> 0 <= a / b.
Proof.
  intros Ha Hb. unfold Qdiv. apply Qmult_le_0_compat; [assumption|].
  apply Qlt_le_weak. apply Qinv_lt_0_compat. assumption.
Qed.

Lemma py_min_Qmin (a b : Q) : py_min a b == Qmin a b.
Proof.
  unfold py_min. destruct (Qgt_bool a b) eqn:E.
  - apply Qgt_bool_true in E. symmetry. apply Q.min_r. apply Qlt_le_weak. exact E.
  - apply Qgt_bool_false in E. symmetry. apply Q.min_l. exact E.
Qed.

(** ** The aggregation, in closed form *)

Lemma pct_of_returns (c t : Z) : pct_of c t = Returns (pct_value c t).
Proof.
  unfold pct_of, pct_value. destruct (0 <? t)%Z eqn:E; [|reflexivity].
  apply Z.ltb_lt in E.
  rewrite py_div_returns by (apply inject_Z_pos_nonzero; exact E).
  reflexivity.
Qed.

Lemma calculate_sentiment_metrics_returns (df : DataFrame) (ad : option AppDetails) :
  has_column "sentiment" df = true ->
  let cnt := value_counts_get (map sentiment (rows df)) in
  let P := pct_value (cnt "Positive") (len df) in
  let N := pct_value (cnt "Negative") (len df) in
  let U := pct_value (cnt "Neutral") (len df) in
  calculate_sentiment_metrics df ad =
  Returns (mkSentimentMetrics cnt P N U
             (rating_value P N U (cnt "Positive" + cnt "Negative" + cnt "Neutral"))
             (playstore_score_of ad)).
Proof.
  intros Hc cnt P N U.
  unfold calculate_sentiment_metrics, getitem. rewrite Hc.
  cbn [bind]. rewrite !pct_of_returns. cbn [bind].
  fold cnt. fold P. fold N. fold U. unfold rating_value.
  destruct (0 <? cnt "Positive" + cnt "Negative" + cnt "Neutral")%Z; [|reflexivity].
  destruct (Qgt_bool (P + N) 0) eqn:E; [|reflexivity].
  apply Qgt_bool_true in E.
  rewrite py_div_returns; [reflexivity|].
  intro Hz. rewrite Hz in E. exact (Qlt_irrefl _ E).
Qed.

Lemma calculate_sentiment_metrics_raises (df : DataFrame) (ad : option AppDetails) :
  has_column "sentiment" df = false ->
  calculate_sentiment_metrics df ad = Raises (KeyError "sentiment").
Proof.
  intros Hc. unfold calculate_sentiment_metrics, getitem. rewrite Hc. reflexivity.
Qed.

Lemma value_counts_get_nonneg (l : list pyobj) (s : string) :
  (0 <= value_counts_get l s)%Z.
Proof. unfold value_counts_get. lia. Qed.

Lemma pct_value_nonneg (c t : Z) : (0 <= c)%Z -> 0 <= pct_value c t.
Proof.
  intros Hc. unfold pct_value. destruct (0 <? t)%Z eqn:E; [|apply Qle_refl].
  apply Z.ltb_lt in E.
  apply Qmult_le_0_compat; [|discriminate].
  apply Qdiv_nonneg; [apply inject_Z_nonneg; exact Hc|].
  unfold Qlt. simpl. lia.
Qed.

Lemma pct_value_zero (t : Z) : pct_value 0 t == 0.
Proof.
  unfold pct_value. destruct (0 <? t)%Z; [|reflexivity].
  unfold Qdiv. rewrite !Qmult_0_l. reflexivity.
Qed.

Lemma labels_partition (series : list pyobj) :
  Forall (fun o => is_sentiment_label o = true) series ->
  (value_counts_get series "Positive" + value_counts_get series "Negative"
   + value_counts_get series "Neutral" = Z.of_nat (List.length series))%Z.
Proof.
  unfold value_counts_get. induction 1 as [|o l Ho _ IH]; [reflexivity|].
  cbn [filter List.length].
  destruct o as [| |s|r]; try discriminate Ho.
  unfold is_sentiment_label in Ho. cbn [py_str_eqb] in *.
  destruct (String.eqb s "Positive") eqn:EP.
  - apply String.eqb_eq in EP. subst s. cbn [String.eqb Ascii.eqb Bool.eqb].
    cbn [List.length]. lia.
  - destruct (String.eqb s "Negative") eqn:EN.
    + apply String.eqb_eq in EN. subst s. cbn [String.eqb Ascii.eqb Bool.eqb].
      cbn [List.length]. lia.
    + destruct (String.eqb s "Neutral") eqn:EU; [|discriminate Ho].
      cbn [List.length]. lia.
Qed.

Lemma pct_values_sum (a b c t : Z) :
  (0 < t)%Z -> (a + b + c = t)%Z ->
  pct_value a t + pct_value b t + pct_value c t == 100.
Proof.
  intros Ht Hs. unfold pct_value.
  destruct (0 <? t)%Z eqn:E; [|apply Z.ltb_ge in E; lia].
  assert (Hn : ~ inject_Z t == 0) by (apply inject_Z_pos_nonzero; exact Ht).
  assert (Hq : inject_Z a + inject_Z b + inject_Z c == inject_Z t).
  { rewrite <- !inject_Z_plus. rewrite Hs. reflexivity. }
  setoid_replace (inject_Z a / inject_Z t * 100 + inject_Z b / inject_Z t * 100
                  + inject_Z c / inject_Z t * 100)
    with ((inject_Z a + inject_Z b + inject_Z c) / inject_Z t * 100)
    by (field; exact Hn).
  rewrite Hq. field. exact Hn.
Qed.

Lemma py_min_100_range (x : Q) : 0 <= x -> 0 <= py_min 100 x <= 100.
Proof.
  intros Hx. unfold py_min. destruct (Qgt_bool 100 x) eqn:E.
  - apply Qgt_bool_true in E. split; [exact Hx|apply Qlt_le_weak; exact E].
  - split; [discriminate|apply Qle_refl].
Qed.

(** ** Claims on [calculate_sentiment_metrics] *)

(** C1 (amended): on a frame with no rows that carries the sentiment column,
    the three percentages and the composite score are 0, and no call of the
    aggregation ever ends in a division error; the store-rating percentage
    does not look at the reviews: on every frame, empty or not, it is 20
    times the supplied score, and 0 only when no record or no score is
    supplied. *)
Theorem empty_collection_metrics (df : DataFrame) (ad : option AppDetails) :
  calculate_sentiment_metrics df ad <> Raises ZeroDivisionError /\
  (has_column "sentiment" df = true ->
   exists m, calculate_sentiment_metrics df ad = Returns m /\
     playstore_score m =
       match ad with
       | Some d => match ad_score d with Some s => s * 20 | None => 0 end
       | None => 0
       end /\
     (rows df = [] ->
      positive_pct m = 0 /\ negative_pct m = 0 /\ neutral_pct m = 0 /\
      app_rating_score m = 0)).
Proof.
  split.
  - destruct (has_column "sentiment" df) eqn:Hc.
    + rewrite calculate_sentiment_metrics_returns by exact Hc. discriminate.
    + rewrite calculate_sentiment_metrics_raises by exact Hc. discriminate.
  - intros Hc. eexists. split.
    + apply calculate_sentiment_metrics_returns. exact Hc.
    + split; [reflexivity|]. intros Hr.
      unfold len. rewrite Hr. cbn [map List.length].
      repeat split; reflexivity.
Qed.

(** C3: on a labelled collection the three percentages add up to 100 when
    there is at least one review, and are all 0 when there is none. *)
Theorem percentages_sum_to_100 (df : DataFrame) (ad : option AppDetails) :
  labeled_collection df ->
  exists m, calculate_sentiment_metrics df ad = Returns m /\
    (rows df <> [] ->
     positive_pct m + negative_pct m + neutral_pct m == 100) /\
    (rows df = [] ->
     positive_pct m == 0 /\ negative_pct m == 0 /\ neutral_pct m == 0).
Proof.
  intros [Hc Hl]. eexists. split.
  - apply calculate_sentiment_metrics_returns. exact Hc.
  - cbn [positive_pct negative_pct neutral_pct]. split.
    + intros Hne. apply pct_values_sum.
      * unfold len. destruct (rows df); [contradiction|]. cbn [List.length]. lia.
      * unfold len. rewrite <- (length_map sentiment (rows df)).
        apply labels_partition. apply Forall_map. exact Hl.
    + intros He. unfold len. rewrite He. cbn [map List.length].
      repeat split; reflexivity.
Qed.

(** C5: with at least one review the composite score is
    [min(100, positive_pct + credit)], the credit being
    [neutral_pct * (positive_pct / (positive_pct + negative_pct))] when that
    denominator is positive and 0 otherwise; it lies between 0 and 100. *)
Theorem composite_rating_score_formula (df : DataFrame) (ad : option AppDetails) :
  has_column "sentiment" df = true ->
  rows df <> [] ->
  exists m, calculate_sentiment_metrics df ad = Returns m /\
    (0 < positive_pct m + negative_pct m ->
     app_rating_score m ==
       Qmin 100 (positive_pct m
                 + neutral_pct m
                   * (positive_pct m / (positive_pct m + negative_pct m)))) /\
    (~ 0 < positive_pct m + negative_pct m ->
     app_rating_score m == Qmin 100 (positive_pct m + 0)) /\
    0 <= app_rating_score m <= 100.
Proof.
  intros Hc Hne. eexists. split.
  - apply calculate_sentiment_metrics_returns. exact Hc.
  - cbn [positive_pct negative_pct neutral_pct app_rating_score].
    set (cnt := value_counts_get (map sentiment (rows df))).
    set (P := pct_value (cnt "Positive") (len df)).
    set (N := pct_value (cnt "Negative") (len df)).
    set (U := pct_value (cnt "Neutral") (len df)).
    assert (HP : 0 <= P) by (apply pct_value_nonneg, value_counts_get_nonneg).
    assert (HN : 0 <= N) by (apply pct_value_nonneg, value_counts_get_nonneg).
    assert (HU : 0 <= U) by (apply pct_value_nonneg, value_counts_get_nonneg).
    unfold rating_value.
    destruct (0 <? cnt "Positive" + cnt "Negative" + cnt "Neutral")%Z eqn:Et.
    + destruct (Qgt_bool (P + N) 0) eqn:E.
      * apply Qgt_bool_true in E. split; [|split].
        -- intros _. apply py_min_Qmin.
        -- intros Hn. contradiction.
        -- apply py_min_100_range.
           rewrite <- (Qplus_0_r 0). apply Qplus_le_compat; [exact HP|].
           apply Qmult_le_0_compat; [exact HU|].
           apply Qdiv_nonneg; assumption.
      * apply Qgt_bool_false in E. split; [|split].
        -- intros Hp. exfalso. exact (Qlt_not_le _ _ Hp E).
        -- intros _. apply py_min_Qmin.
        -- apply py_min_100_range. rewrite Qplus_0_r. exact HP.
    + apply Z.ltb_ge in Et.
      pose proof (value_counts_get_nonneg (map sentiment (rows df)) "Positive") as H1.
      pose proof (value_counts_get_nonneg (map sentiment (rows df)) "Negative") as H2.
      pose proof (value_counts_get_nonneg (map sentiment (rows df)) "Neutral") as H3.
      fold cnt in H1, H2, H3.
      assert (EP : P == 0).
      { unfold P. replace (cnt "Positive") with 0%Z by lia. apply pct_value_zero. }
      assert (EN : N == 0).
      { unfold N. replace (cnt "Negative") with 0%Z by lia. apply pct_value_zero. }
      split; [|split].
      * intros Hp. exfalso. rewrite EP, EN in Hp. revert Hp. apply Qlt_irrefl.
      * intros _. symmetry. rewrite <- py_min_Qmin. unfold py_min.
        destruct (Qgt_bool 100 (P + 0)) eqn:E.
        -- rewrite EP. reflexivity.
        -- apply Qgt_bool_false in E. rewrite EP in E. exfalso.
           revert E. apply Qlt_not_le. reflexivity.
      * split; [apply Qle_refl|discriminate].
Qed.

(** ** The classification report, row by row *)

Section Masks.
Context {A : Type}.
Variables f g : A -> bool.

Lemma mask_and_map (l : list A) :
  mask_and (map f l) (map g l) = map (fun x => (f x && g x)%bool) l.
Proof.
  unfold mask_and. induction l as [|x l IH]; [reflexivity|].
  cbn [map combine fst snd]. f_equal. exact IH.
Qed.

Lemma mask_not_map (l : list A) :
  mask_not (map f l) = map (fun x => negb (f x)) l.
Proof. unfold mask_not. apply map_map. Qed.

Lemma mask_sum_map (l : list A) :
  mask_sum (map f l) = Z.of_nat (List.length (filter f l)).
Proof.
  unfold mask_sum. f_equal.
  induction l as [|x l IH]; [reflexivity|].
  cbn [map filter]. destruct (f x); cbn [List.length]; rewrite IH; reflexivity.
Qed.
End Masks.

Lemma boolean_index_map (h : Row -> bool) (l : list Row) :
  boolean_index l (map h l) = filter h l.
Proof.
  unfold boolean_index. induction l as [|x l IH]; [reflexivity|].
  cbn [map combine filter snd]. destruct (h x); cbn [map fst]; rewrite IH; reflexivity.
Qed.

Lemma cells_partition (l : list Row) :
  (List.length (filter cell_tp l) + List.length (filter cell_tn l)
   + List.length (filter cell_fp l) + List.length (filter cell_fn l)
   = List.length l)%nat.
Proof.
  induction l as [|x l IH]; [reflexivity|].
  cbn [filter]. unfold cell_tp, cell_tn, cell_fp, cell_fn in *.
  destruct (row_truth x), (row_predicted x); cbn [andb negb List.length]; lia.
Qed.

Lemma ratio_of_returns (num den : Z) : ratio_of num den = Returns (ratio_value num den).
Proof.
  unfold ratio_of, ratio_value. destruct (0 <? den)%Z eqn:E; [|reflexivity].
  apply Z.ltb_lt in E. apply py_div_returns, inject_Z_pos_nonzero, E.
Qed.

Lemma ratio_value_nonneg (num den : Z) : (0 <= num)%Z -> 0 <= ratio_value num den.
Proof.
  intros Hn. unfold ratio_value. destruct (0 <? den)%Z eqn:E; [|apply Qle_refl].
  apply Z.ltb_lt in E. apply Qdiv_nonneg; [apply inject_Z_nonneg, Hn|].
  unfold Qlt. simpl. lia.
Qed.

Lemma classification_body_returns (df : DataFrame) (sample_each : Z) :
  empty df = false ->
  has_column "content" df = true ->
  has_column "sentiment" df = true ->
  classification_body (Some df) sample_each = Returns (report_value df sample_each).
Proof.
  intros He Hc Hs. unfold classification_body, getitem.
  rewrite He, Hc, Hs. cbn [bind]. cbv zeta.
  unfold examples_for. rewrite !map_map.
  rewrite !mask_not_map, !mask_and_map, !mask_sum_map, !boolean_index_map.
  rewrite !ratio_of_returns. cbn [bind].
  unfold report_value, f1_value, count_cell, sample_of.
  unfold cell_tp, cell_tn, cell_fp, cell_fn, row_truth, row_predicted. cbv zeta.
  match goal with
  | |- context [Qgt_bool ?s 0] => destruct (Qgt_bool s 0) eqn:E
  end; [|reflexivity].
  apply Qgt_bool_true in E.
  rewrite py_div_returns; [reflexivity|].
  intro Hz. rewrite Hz in E. exact (Qlt_irrefl _ E).
Qed.

Lemma compute_classification_metrics_cases (odf : option DataFrame) (sample_each : Z) :
  compute_classification_metrics odf sample_each = Returns zero_report \/
  exists df, odf = Some df /\ empty df = false /\
    has_column "content" df = true /\ has_column "sentiment" df = true /\
    compute_classification_metrics odf sample_each
    = Returns (report_value df sample_each).
Proof.
  unfold compute_classification_metrics.
  destruct odf as [df|]; [|left; reflexivity].
  destruct (empty df) eqn:He.
  { left. unfold classification_body. rewrite He. reflexivity. }
  destruct (has_column "content" df) eqn:Hc.
  - destruct (has_column "sentiment" df) eqn:Hs.
    + right. exists df. rewrite classification_body_returns by assumption.
      repeat split; solve [assumption | reflexivity].
    + left. unfold classification_body, getitem. rewrite He, Hc, Hs. reflexivity.
  - left. unfold classification_body, getitem. rewrite He, Hc. reflexivity.
Qed.

Lemma ratio_value_spec (num den : Z) :
  (0 <= den)%Z ->
  (den = 0%Z -> ratio_value num den == 0) /\
  (den <> 0%Z -> ratio_value num den == inject_Z num / inject_Z den).
Proof.
  intros Hd. unfold ratio_value. split; intros H.
  - subst den. reflexivity.
  - destruct (0 <? den)%Z eqn:E; [reflexivity|]. apply Z.ltb_ge in E. lia.
Qed.

Lemma f1_value_spec (p r : Q) :
  0 <= p -> 0 <= r ->
  (p + r == 0 -> f1_value p r == 0) /\
  (~ p + r == 0 -> f1_value p r == 2 * p * r / (p + r)).
Proof.
  intros Hp Hr. unfold f1_value. split; intros H.
  - destruct (Qgt_bool (p + r) 0) eqn:E; [|reflexivity].
    apply Qgt_bool_true in E. rewrite H in E. exfalso. exact (Qlt_irrefl _ E).
  - destruct (Qgt_bool (p + r) 0) eqn:E; [reflexivity|].
    apply Qgt_bool_false in E. exfalso. apply H. apply Qle_antisym; [exact E|].
    rewrite <- (Qplus_0_r 0). apply Qplus_le_compat; assumption.
Qed.

Lemma count_cell_nonneg (cell : Row -> bool) (df : DataFrame) :
  (0 <= count_cell cell df)%Z.
Proof. unfold count_cell. lia. Qed.

Lemma empty_with_column (c : string) (df : DataFrame) :
  has_column c df = true -> empty df = true -> rows df = [].
Proof.
  unfold has_column, empty. intros Hc He.
  destruct (rows df); [reflexivity|].
  destruct (columns df); [discriminate Hc|discriminate He].
Qed.

Lemma head_length {A : Type} (n : Z) (l : list A) :
  (0 <= n)%Z -> (Z.of_nat (List.length (head n l)) <= n)%Z.
Proof.
  intros Hn. unfold head. destruct (0 <=? n)%Z eqn:E; [|apply Z.leb_gt in E; lia].
  pose proof (firstn_le_length (Z.to_nat n) l). lia.
Qed.

Lemma head_firstn {A : Type} (n : Z) (l : list A) :
  (0 <= n)%Z -> head n l = firstn (Z.to_nat n) l.
Proof.
  intros Hn. unfold head. destruct (0 <=? n)%Z eqn:E; [reflexivity|].
  apply Z.leb_gt in E. lia.
Qed.

Lemma sample_of_length (df : DataFrame) (n : Z) (cell : Row -> bool) :
  (0 <= n)%Z -> (Z.of_nat (List.length (sample_of df n cell)) <= n)%Z.
Proof.
  intros Hn. unfold sample_of. rewrite length_map. apply head_length. exact Hn.
Qed.

(** ** Claims on [compute_classification_metrics] *)

(** C8: on a frame that carries the content and sentiment columns, the four
    confusion counts add up to the number of reviews, and accuracy,
    precision, recall and F1 are the stated quotients, each 0 when its
    denominator is 0. *)
Theorem confusion_counts_sum (df : DataFrame) (sample_each : Z) :
  has_column "content" df = true ->
  has_column "sentiment" df = true ->
  exists r, compute_classification_metrics (Some df) sample_each = Returns r /\
    confusion_total (confusion r) = len df /\
    (confusion_total (confusion r) = 0%Z -> accuracy r == 0) /\
    (confusion_total (confusion r) <> 0%Z ->
     accuracy r == inject_Z (tp (confusion r) + tn (confusion r))
                   / inject_Z (confusion_total (confusion r))) /\
    ((tp (confusion r) + fp (confusion r))%Z = 0%Z -> precision r == 0) /\
    ((tp (confusion r) + fp (confusion r))%Z <> 0%Z ->
     precision r == inject_Z (tp (confusion r))
                    / inject_Z (tp (confusion r) + fp (confusion r))) /\
    ((tp (confusion r) + fn (confusion r))%Z = 0%Z -> recall r == 0) /\
    ((tp (confusion r) + fn (confusion r))%Z <> 0%Z ->
     recall r == inject_Z (tp (confusion r))
                 / inject_Z (tp (confusion r) + fn (confusion r))) /\
    (precision r + recall r == 0 -> f1 r == 0) /\
    (~ precision r + recall r == 0 ->
     f1 r == 2 * precision r * recall r / (precision r + recall r)).
Proof.
  intros Hc Hs.
  destruct (compute_classification_metrics_cases (Some df) sample_each)
    as [Hz | (df' & Hdf & He & _ & _ & Hr)].
  - exists zero_report. split; [exact Hz|].
    assert (Hrows : rows df = []).
    { destruct (empty df) eqn:He; [exact (empty_with_column _ _ Hc He)|].
      unfold compute_classification_metrics in Hz.
      rewrite classification_body_returns in Hz by assumption.
      cbn [try_except] in Hz. apply Returns_inj in Hz.
      apply (f_equal (fun r => confusion_total (confusion r))) in Hz.
      unfold report_value, confusion_total, count_cell in Hz.
      cbn [confusion tp tn fp fn zero_report] in Hz.
      pose proof (cells_partition (rows df)) as Hp.
      destruct (rows df); [reflexivity|]. cbn [List.length] in Hp. lia. }
    unfold len. rewrite Hrows. cbn.
    repeat split; try reflexivity; intros H; exfalso; apply H; reflexivity.
  - injection Hdf as <-. exists (report_value df sample_each).
    split; [exact Hr|].
    unfold report_value, confusion_total.
    cbn [confusion tp tn fp fn accuracy precision recall f1].
    pose proof (count_cell_nonneg cell_tp df) as H1.
    pose proof (count_cell_nonneg cell_tn df) as H2.
    pose proof (count_cell_nonneg cell_fp df) as H3.
    pose proof (count_cell_nonneg cell_fn df) as H4.
    split.
    { unfold count_cell, len. pose proof (cells_partition (rows df)). lia. }
    split; [apply ratio_value_spec; lia|].
    split; [apply ratio_value_spec; lia|].
    split; [apply ratio_value_spec; lia|].
    split; [apply ratio_value_spec; lia|].
    split; [apply ratio_value_spec; lia|].
    split; [apply ratio_value_spec; lia|].
    apply f1_value_spec; apply ratio_value_nonneg; assumption.
Qed.

(** C10: [compute_classification_metrics] returns on every input; for a
    missing or empty frame, and whenever its body raises, the result is the
    zero report; with a non-negative cap each example list has at most
    [sample_each] entries, the first ones met in row order. *)
Theorem compute_classification_metrics_total
  (odf : option DataFrame) (sample_each : Z) :
  exists r, compute_classification_metrics odf sample_each = Returns r /\
    (odf = None -> r = zero_report) /\
    (forall df, odf = Some df -> empty df = true -> r = zero_report) /\
    (forall e, classification_body odf sample_each = Raises e -> r = zero_report) /\
    ((0 <= sample_each)%Z ->
     (Z.of_nat (List.length (examples_tp (examples r))) <= sample_each)%Z /\
     (Z.of_nat (List.length (examples_tn (examples r))) <= sample_each)%Z /\
     (Z.of_nat (List.length (examples_fp (examples r))) <= sample_each)%Z /\
     (Z.of_nat (List.length (examples_fn (examples r))) <= sample_each)%Z) /\
    (forall df, odf = Some df -> (0 <= sample_each)%Z ->
     has_column "content" df = true -> has_column "sentiment" df = true ->
     let first_met cell :=
       map (example_of df) (firstn (Z.to_nat sample_each) (filter cell (rows df))) in
     examples_tp (examples r) = first_met cell_tp /\
     examples_tn (examples r) = first_met cell_tn /\
     examples_fp (examples r) = first_met cell_fp /\
     examples_fn (examples r) = first_met cell_fn).
Proof.
  destruct (compute_classification_metrics_cases odf sample_each)
    as [Hz | (df & Hdf & He & Hc & Hs & Hr)].
  - exists zero_report. split; [exact Hz|].
    split; [reflexivity|]. split; [reflexivity|]. split; [reflexivity|].
    split.
    + intros Hn. cbn. lia.
    + intros df Hdf Hn Hc Hs. subst odf. cbv zeta.
      destruct (empty df) eqn:He.
      * rewrite (empty_with_column _ _ Hc He). cbn [filter]. rewrite firstn_nil.
        repeat split; reflexivity.
      * unfold compute_classification_metrics in Hz.
        rewrite classification_body_returns in Hz by assumption.
        cbn [try_except] in Hz. apply Returns_inj in Hz.
        rewrite <- Hz. unfold report_value, sample_of. cbn [examples examples_tp
          examples_tn examples_fp examples_fn].
        rewrite !head_firstn by exact Hn. repeat split; reflexivity.
  - subst odf. exists (report_value df sample_each). split; [exact Hr|].
    split; [discriminate|]. split.
    { intros df' Hdf He'. injection Hdf as <-. congruence. }
    split.
    { intros e Hb. rewrite classification_body_returns in Hb by assumption.
      discriminate Hb. }
    unfold report_value. cbn [examples examples_tp examples_tn examples_fp examples_fn].
    split.
    + intros Hn. repeat split; apply sample_of_length; exact Hn.
    + intros df' Hdf Hn _ _. injection Hdf as <-. cbv zeta.
      unfold sample_of. rewrite !head_firstn by exact Hn.
      repeat split; reflexivity.
Qed.

(** ** Keyword search *)

Lemma lower_app (a b : string) : lower (a ++ b) = (lower a ++ lower b)%string.
Proof.
  induction a as [|c a IH]; [reflexivity|].
  cbn [append lower]. rewrite IH. reflexivity.
Qed.

Lemma prefix_app (k b : string) : String.prefix k (k ++ b) = true.
Proof.
  induction k as [|c k IH]; [destruct b; reflexivity|].
  cbn [append String.prefix]. destruct (ascii_dec c c) as [_|Hn]; [exact IH|].
  exfalso. apply Hn. reflexivity.
Qed.

Lemma contains_app (k a b : string) : contains k (a ++ k ++ b) = true.
Proof.
  induction a as [|c a IH].
  - cbn [append]. destruct (k ++ b)%string eqn:E.
    + cbn [contains]. rewrite <- E. rewrite prefix_app. reflexivity.
    + cbn [contains]. rewrite <- E. rewrite prefix_app. reflexivity.
  - cbn [append contains]. rewrite IH. apply orb_true_r.
Qed.

Lemma gt_negative_empty : gt_negative (PyStr "") = false.
Proof. vm_compute. reflexivity. Qed.

Lemma label_default_override : label_default (-0.8) = "Negative".
Proof. vm_compute. reflexivity. Qed.

Section CollaboratorFacts.

Variable TextBlob_polarity : string -> Q.

Lemma derived_label_not_fn (r : Row) : derived_label TextBlob_polarity r -> cell_fn r = false.
Proof.
  unfold derived_label, cell_fn, row_truth, row_predicted. intros H. rewrite H.
  destruct (content r) as [| |s|o]; cbn [fillna_empty].
  - rewrite gt_negative_empty. reflexivity.
  - rewrite gt_negative_empty. reflexivity.
  - unfold gt_negative, analyze_sentiment. cbv zeta.
    destruct (existsb (fun k => contains k (lower s)) NEGATIVE_KEYWORDS);
      [|reflexivity].
    rewrite label_default_override. reflexivity.
  - reflexivity.
Qed.

Lemma derived_labels_filter_fn (l : list Row) :
  Forall (derived_label TextBlob_polarity) l -> filter cell_fn l = [].
Proof.
  induction 1 as [|r l Hr _ IH]; [reflexivity|].
  cbn [filter]. rewrite (derived_label_not_fn r Hr). exact IH.
Qed.

Lemma label_row_derived (r : Row) : derived_label TextBlob_polarity (label_row TextBlob_polarity r).
Proof. reflexivity. Qed.

Lemma no_false_negative_report (df : DataFrame) (sample_each : Z) :
  Forall (derived_label TextBlob_polarity) (rows df) ->
  fn (confusion (report_value df sample_each)) = 0%Z /\
  ((0 < tp (confusion (report_value df sample_each)))%Z ->
   recall (report_value df sample_each) == 1).
Proof.
  intros Hd. unfold report_value. cbn [confusion fn tp recall].
  assert (Hfn : count_cell cell_fn df = 0%Z).
  { unfold count_cell. rewrite derived_labels_filter_fn by exact Hd. reflexivity. }
  rewrite Hfn. split; [reflexivity|].
  intros Hpos. rewrite Z.add_0_r. unfold ratio_value.
  destruct (0 <? count_cell cell_tp df)%Z eqn:E; [|apply Z.ltb_ge in E; lia].
  field. apply inject_Z_pos_nonzero. exact Hpos.
Qed.

(** ** Claims on [analyze_sentiment] and on the labelled pipeline *)

(** C4: a string whose lower-cased form contains a curated keyword scores
    exactly -0.8, whatever surrounds the keyword and whatever the generic
    model says; an input that is not a string scores 0. *)
Theorem analyze_sentiment_keyword_override :
  (forall s k, In k NEGATIVE_KEYWORDS -> contains k (lower s) = true ->
     analyze_sentiment TextBlob_polarity (PyStr s) = -0.8) /\
  (forall pre w post, In (lower w) NEGATIVE_KEYWORDS ->
     analyze_sentiment TextBlob_polarity (PyStr (pre ++ w ++ post)) = -0.8) /\
  (forall o, (forall s, o <> PyStr s) ->
     analyze_sentiment TextBlob_polarity o = 0).
Proof.
  assert (Hk : forall s k, In k NEGATIVE_KEYWORDS -> contains k (lower s) = true ->
                 analyze_sentiment TextBlob_polarity (PyStr s) = -0.8).
  { intros s k Hin Hc. unfold analyze_sentiment. cbv zeta.
    assert (He : existsb (fun keyword => contains keyword (lower s))
                   NEGATIVE_KEYWORDS = true).
    { apply existsb_exists. exists k. split; assumption. }
    rewrite He. reflexivity. }
  split; [exact Hk|]. split.
  - intros pre w post Hin. apply (Hk _ (lower w) Hin).
    rewrite !lower_app. apply contains_app.
  - intros o Ho. destruct o as [| |s|r]; try reflexivity.
    exfalso. exact (Ho s eq_refl).
Qed.

(** C9: when every sentiment label is the one computed from the review's own
    text with the default thresholds, no review is a false negative, and
    recall is 1 as soon as there is a true positive. *)
Theorem derived_labels_no_false_negative (df : DataFrame) (sample_each : Z) :
  Forall (derived_label TextBlob_polarity) (rows df) ->
  exists r, compute_classification_metrics (Some df) sample_each = Returns r /\
    fn (confusion r) = 0%Z /\
    ((0 < tp (confusion r))%Z -> recall r == 1).
Proof.
  intros Hd.
  destruct (compute_classification_metrics_cases (Some df) sample_each)
    as [Hz | (df' & Hdf & _ & _ & _ & Hr)].
  - exists zero_report. split; [exact Hz|]. split; [reflexivity|].
    cbn. intros H. lia.
  - injection Hdf as <-. exists (report_value df sample_each).
    split; [exact Hr|]. apply no_false_negative_report. exact Hd.
Qed.

(** The frames built by [analyze_direct] are of that kind. *)
Lemma label_reviews_no_false_negative (df : DataFrame) (sample_each : Z) :
  exists r,
    compute_classification_metrics (Some (label_reviews TextBlob_polarity df))
      sample_each = Returns r /\
    fn (confusion r) = 0%Z.
Proof.
  destruct (compute_classification_metrics_cases
              (Some (label_reviews TextBlob_polarity df)) sample_each)
    as [Hz | (df' & Hdf & He & Hc & _ & Hr)].
  - exists zero_report. split; [exact Hz|reflexivity].
  - injection Hdf as <-. eexists. split; [exact Hr|].
    apply no_false_negative_report.
    unfold label_reviews in *.
    destruct (has_column "content" df && negb (empty df))%bool eqn:E.
    + cbn [rows]. apply Forall_map. apply Forall_forall. intros r _.
      apply label_row_derived.
    + rewrite He in E. rewrite Hc in E. discriminate E.
Qed.

End CollaboratorFacts.

(** ** Claims on labelling and on the risk decision *)

Lemma label_cases (p positive_threshold negative_threshold : Q) :
  (positive_threshold < p /\
   label p positive_threshold negative_threshold = "Positive") \/
  (~ positive_threshold < p /\ p < negative_threshold /\
   label p positive_threshold negative_threshold = "Negative") \/
  (~ positive_threshold < p /\ ~ p < negative_threshold /\
   label p positive_threshold negative_threshold = "Neutral").
Proof.
  unfold label.
  destruct (Qgt_bool p positive_threshold) eqn:EP.
  - left. apply Qgt_bool_true in EP. split; [exact EP|reflexivity].
  - right. apply Qgt_bool_false in EP. apply Qle_not_lt in EP.
    destruct (Qgt_bool negative_threshold p) eqn:EN.
    + left. apply Qgt_bool_true in EN. repeat split; assumption.
    + right. apply Qgt_bool_false in EN. apply Qle_not_lt in EN.
      repeat split; assumption.
Qed.

(** C7: the label is Positive exactly above the positive threshold, Negative
    exactly below the negative one when not Positive, Neutral otherwise; both
    boundaries are exclusive. *)
Theorem label_thresholds (p positive_threshold negative_threshold : Q) :
  (label p positive_threshold negative_threshold = "Positive"
   <-> positive_threshold < p) /\
  (label p positive_threshold negative_threshold = "Negative"
   <-> ~ positive_threshold < p /\ p < negative_threshold) /\
  (label p positive_threshold negative_threshold = "Neutral"
   <-> ~ positive_threshold < p /\ ~ p < negative_threshold) /\
  label 0.5 0.1 (-0.1) = "Positive" /\
  label (-0.5) 0.1 (-0.1) = "Negative" /\
  label 0.0 0.1 (-0.1) = "Neutral" /\
  label 0.1 0.1 (-0.1) = "Neutral" /\
  label_default 0.5 = "Positive" /\
  label_default (-0.5) = "Negative" /\
  label_default 0.0 = "Neutral" /\
  label_default 0.1 = "Neutral".
Proof.
  split; [|split; [|split; [|vm_compute; repeat split; reflexivity]]];
    destruct (label_cases p positive_threshold negative_threshold)
      as [[H1 E]|[(H1 & H2 & E)|(H1 & H2 & E)]];
    rewrite E; split; intros H; try discriminate H; try reflexivity; tauto.
Qed.

(** C6: the risk flag is [negative_pct > threshold], strictly, with the
    advisory message when it is raised and the fixed no-risk message of the
    route otherwise. *)
Theorem assess_risk_strict (RISK_WARNING_SHORT : string) (negative_pct threshold : Q) :
  (threshold < negative_pct ->
   assess_risk RISK_WARNING_SHORT negative_pct threshold
   = (true, RISK_WARNING_SHORT) /\
   assess_risk_update RISK_WARNING_SHORT negative_pct threshold
   = (true, RISK_WARNING_SHORT)) /\
  (negative_pct <= threshold ->
   assess_risk RISK_WARNING_SHORT negative_pct threshold
   = (false, "No risk indicators") /\
   assess_risk_update RISK_WARNING_SHORT negative_pct threshold
   = (false, "No significant risk indicators found")) /\
  assess_risk RISK_WARNING_SHORT 45.0 30.0 = (true, RISK_WARNING_SHORT) /\
  assess_risk RISK_WARNING_SHORT 20.0 30.0 = (false, "No risk indicators") /\
  assess_risk RISK_WARNING_SHORT 30.0 30.0 = (false, "No risk indicators").
Proof.
  split; [|split; [|repeat split; reflexivity]].
  - intros H. apply Qgt_bool_true in H.
    unfold assess_risk, assess_risk_update. rewrite H. split; reflexivity.
  - intros H. apply Qgt_bool_false in H.
    unfold assess_risk, assess_risk_update. rewrite H. split; reflexivity.
Qed.

Lemma stored_fraud_threshold_range (t : Q) : 1 <= stored_fraud_threshold t <= 100.
Proof.
  assert (E1 : 1.0 == 1) by reflexivity.
  assert (E100 : 100.0 == 100) by reflexivity.
  unfold stored_fraud_threshold, py_max, py_min.
  destruct (Qgt_bool t 100.0) eqn:Ha.
  - destruct (Qgt_bool 100.0 1.0) eqn:Hb; split; discriminate.
  - apply Qgt_bool_false in Ha. rewrite E100 in Ha.
    destruct (Qgt_bool t 1.0) eqn:Hb.
    + apply Qgt_bool_true in Hb. rewrite E1 in Hb.
      split; [apply Qlt_le_weak; exact Hb|exact Ha].
    + split; discriminate.
Qed.

Lemma stored_fraud_threshold_id (t : Q) :
  1 <= t <= 100 -> stored_fraud_threshold t == t.
Proof.
  assert (E1 : 1.0 == 1) by reflexivity.
  assert (E100 : 100.0 == 100) by reflexivity.
  intros [H1 H2]. unfold stored_fraud_threshold, py_max, py_min.
  rewrite <- E100 in H2. apply Qgt_bool_false in H2. rewrite H2.
  destruct (Qgt_bool t 1.0) eqn:Hb; [reflexivity|].
  apply Qgt_bool_false in Hb. rewrite E1. rewrite E1 in Hb.
  apply Qle_antisym; assumption.
Qed.

(** C2 (amended): neither the labelling nor the risk decision validates its
    thresholds: for all thresholds, ordered or not, in range or not, they
    return the plain comparison result and never raise; the only range
    handling is the clamp of the search route, which brings the submitted
    threshold into [1, 100] before it is stored. *)
Theorem thresholds_not_validated
  (RISK_WARNING_SHORT : string) (p positive_threshold negative_threshold : Q)
  (negative_pct threshold : Q) :
  (exists l, label_call p positive_threshold negative_threshold = Returns l /\
     (positive_threshold < p -> l = "Positive") /\
     (~ positive_threshold < p -> p < negative_threshold -> l = "Negative") /\
     (~ positive_threshold < p -> ~ p < negative_threshold -> l = "Neutral")) /\
  (exists b msg,
     assess_risk_call RISK_WARNING_SHORT negative_pct threshold = Returns (b, msg) /\
     (b = true <-> threshold < negative_pct)) /\
  (forall e, label_call p positive_threshold negative_threshold <> Raises e) /\
  (forall e,
     assess_risk_call RISK_WARNING_SHORT negative_pct threshold <> Raises e) /\
  1 <= stored_fraud_threshold threshold <= 100 /\
  (1 <= threshold <= 100 -> stored_fraud_threshold threshold == threshold).
Proof.
  split; [|split; [|split; [|split; [|split]]]].
  - eexists. split; [reflexivity|].
    destruct (label_cases p positive_threshold negative_threshold)
      as [[H1 E]|[(H1 & H2 & E)|(H1 & H2 & E)]];
      rewrite E; repeat split; intros; try reflexivity; contradiction.
  - unfold assess_risk_call, assess_risk. do 2 eexists.
    split; [reflexivity|]. apply Qgt_bool_true.
  - intros e. discriminate.
  - intros e. discriminate.
  - apply stored_fraud_threshold_range.
  - apply stored_fraud_threshold_id.
Qed.

(** ** Remarks on the routes *)

Section Routes.

Variable TextBlob_polarity : string -> Q.

(** With no review fetched, main.py hands the aggregation a frame without
    the sentiment column; update_to_main.py adds the column first. *)
Lemma no_reviews_main (ad : option AppDetails) :
  calculate_sentiment_metrics (label_reviews TextBlob_polarity no_reviews) ad
  = Raises (KeyError "sentiment").
Proof. reflexivity. Qed.

Lemma no_reviews_update (ad : option AppDetails) :
  exists m,
    calculate_sentiment_metrics (label_reviews_update TextBlob_polarity no_reviews) ad
    = Returns m /\
    positive_pct m = 0 /\ negative_pct m = 0 /\ neutral_pct m = 0 /\
    app_rating_score m = 0.
Proof.
  eexists. split.
  - apply calculate_sentiment_metrics_returns. reflexivity.
  - repeat split; reflexivity.
Qed.

End Routes.

(** A negative [sample_each] is not a cap: [head] then drops trailing rows. *)
Lemma head_negative : head (-1) [1%Z; 2%Z; 3%Z] = [1%Z; 2%Z].
Proof. reflexivity. Qed.

(** ** Instances and counterexamples *)

Lemma empty_collection_metrics_witness :
  has_column "sentiment" empty_labeled = true /\ rows empty_labeled = [] /\
  has_column "sentiment" sample_labeled = true /\
  (exists m,
     calculate_sentiment_metrics empty_labeled (Some sample_details) = Returns m /\
     positive_pct m = 0 /\ negative_pct m = 0 /\ neutral_pct m = 0 /\
     app_rating_score m = 0 /\ playstore_score m = 4.5 * 20) /\
  (exists m,
     calculate_sentiment_metrics sample_labeled (Some sample_details) = Returns m /\
     playstore_score m = 4.5 * 20).
Proof.
  split; [reflexivity|]. split; [reflexivity|]. split; [reflexivity|]. split.
  - destruct (proj2 (empty_collection_metrics empty_labeled (Some sample_details))
                eq_refl) as (m & Hm & Hs & Hz).
    destruct (Hz eq_refl) as (H1 & H2 & H3 & H4).
    exists m. repeat split; assumption.
  - destruct (proj2 (empty_collection_metrics sample_labeled (Some sample_details))
                eq_refl) as (m & Hm & Hs & _).
    exists m. split; assumption.
Defined.

(** C1 as stated fails: with no review at all, a supplied store rating of
    4.5 still gives a store-rating percentage of 90. *)
Lemma empty_collection_store_rating_counterexample :
  rows empty_labeled = [] /\
  exists m,
    calculate_sentiment_metrics empty_labeled (Some sample_details) = Returns m /\
    playstore_score m == 90 /\ ~ playstore_score m == 0.
Proof.
  split; [reflexivity|]. eexists. split.
  - apply calculate_sentiment_metrics_returns. reflexivity.
  - split; [reflexivity|discriminate].
Qed.

Lemma sample_labeled_collection : labeled_collection sample_labeled.
Proof. split; [reflexivity|]. repeat constructor. Qed.

Lemma percentages_sum_to_100_witness :
  labeled_collection sample_labeled /\
  exists m, calculate_sentiment_metrics sample_labeled None = Returns m /\
    positive_pct m + negative_pct m + neutral_pct m == 100.
Proof.
  split; [exact sample_labeled_collection|].
  destruct (percentages_sum_to_100 sample_labeled None sample_labeled_collection)
    as (m & Hm & Hs & _).
  exists m. split; [exact Hm|]. apply Hs. discriminate.
Defined.

Lemma composite_rating_score_formula_witness :
  has_column "sentiment" sample_labeled = true /\ rows sample_labeled <> [] /\
  exists m, calculate_sentiment_metrics sample_labeled None = Returns m /\
    0 <= app_rating_score m <= 100.
Proof.
  split; [reflexivity|]. split; [discriminate|].
  destruct (composite_rating_score_formula sample_labeled None eq_refl)
    as (m & Hm & _ & _ & Hr); [discriminate|].
  exists m. split; [exact Hm|exact Hr].
Defined.

Lemma confusion_counts_sum_witness :
  has_column "content" sample_labeled = true /\
  has_column "sentiment" sample_labeled = true /\
  exists r,
    compute_classification_metrics (Some sample_labeled) DEFAULT_SAMPLE_EACH
    = Returns r /\
    confusion_total (confusion r) = 3%Z.
Proof.
  split; [reflexivity|]. split; [reflexivity|].
  destruct (confusion_counts_sum sample_labeled DEFAULT_SAMPLE_EACH eq_refl eq_refl)
    as (r & Hr & Ht & _).
  exists r. split; [exact Hr|exact Ht].
Defined.

Lemma compute_classification_metrics_total_witness :
  (0 <= DEFAULT_SAMPLE_EACH)%Z /\
  exists r,
    compute_classification_metrics (Some sample_labeled) DEFAULT_SAMPLE_EACH
    = Returns r /\
    (Z.of_nat (List.length (examples_tn (examples r))) <= DEFAULT_SAMPLE_EACH)%Z.
Proof.
  split; [discriminate|].
  destruct (compute_classification_metrics_total (Some sample_labeled)
              DEFAULT_SAMPLE_EACH) as (r & Hr & _ & _ & _ & Hl & _).
  exists r. split; [exact Hr|]. apply Hl. discriminate.
Defined.

Lemma derived_labels_no_false_negative_witness :
  Forall (derived_label sample_polarity) (rows sample_labeled) /\
  exists r,
    compute_classification_metrics (Some sample_labeled) DEFAULT_SAMPLE_EACH
    = Returns r /\
    fn (confusion r) = 0%Z.
Proof.
  assert (H : Forall (derived_label sample_polarity) (rows sample_labeled))
    by (repeat constructor).
  split; [exact H|].
  destruct (derived_labels_no_false_negative sample_polarity sample_labeled
              DEFAULT_SAMPLE_EACH H) as (r & Hr & Hf & _).
  exists r. split; [exact Hr|exact Hf].
Defined.

Lemma analyze_sentiment_keyword_override_witness :
  In "scam" NEGATIVE_KEYWORDS /\
  contains "scam" (lower "this is a total SCAM") = true /\
  analyze_sentiment sample_polarity (PyStr "this is a total SCAM") = -0.8.
Proof.
  split; [left; reflexivity|]. split; [reflexivity|].
  apply (proj1 (analyze_sentiment_keyword_override sample_polarity)
           "this is a total SCAM" "scam"); [left; reflexivity|reflexivity].
Defined.

Lemma label_thresholds_witness :
  Config.POSITIVE_THRESHOLD < 0.5 /\
  label 0.5 Config.POSITIVE_THRESHOLD Config.NEGATIVE_THRESHOLD = "Positive".
Proof.
  split; [reflexivity|].
  destruct (label_thresholds 0.5 Config.POSITIVE_THRESHOLD Config.NEGATIVE_THRESHOLD)
    as [[_ H] _].
  apply H. reflexivity.
Defined.

Lemma assess_risk_strict_witness :
  30.0 < 45.0 /\
  assess_risk Config.RISK_WARNING_SHORT 45.0 30.0 = (true, Config.RISK_WARNING_SHORT).
Proof.
  split; [reflexivity|].
  destruct (assess_risk_strict Config.RISK_WARNING_SHORT 45.0 30.0) as [H _].
  apply H. reflexivity.
Defined.

Lemma thresholds_not_validated_witness :
  1 <= Config.DEFAULT_FRAUD_THRESHOLD <= 100 /\
  stored_fraud_threshold Config.DEFAULT_FRAUD_THRESHOLD
  == Config.DEFAULT_FRAUD_THRESHOLD.
Proof.
  assert (H : 1 <= Config.DEFAULT_FRAUD_THRESHOLD <= 100)
    by (split; discriminate).
  split; [exact H|].
  destruct (thresholds_not_validated Config.RISK_WARNING_SHORT 0 0 0 0
              Config.DEFAULT_FRAUD_THRESHOLD) as (_ & _ & _ & _ & _ & Hid).
  apply Hid. exact H.
Defined.

(** C2 as stated fails: with the negative threshold above the positive one
    the labelling still returns a label, and a threshold below 0 or above
    100 still yields a risk decision. *)
Lemma thresholds_validation_counterexample :
  (-1 < 1 /\ label_call 0 (-1) 1 = Returns "Positive") /\
  (-5 < 0 /\
   assess_risk_call Config.RISK_WARNING_SHORT 10 (-5)
   = Returns (true, Config.RISK_WARNING_SHORT)) /\
  (100 < 150 /\
   assess_risk_call Config.RISK_WARNING_SHORT 10 150
   = Returns (false, "No risk indicators")).
Proof. repeat split. Qed.

(** * Further properties *)

(** ** Colour classes *)

(** X1: a score is shown in the danger colour exactly when the risk
    decision on the same score and threshold raises the flag. *)
Theorem score_color_flags_risk (RISK_WARNING_SHORT : string) (score threshold : Q) :
  get_score_color score threshold = "danger"
  <-> fst (assess_risk RISK_WARNING_SHORT score threshold) = true.
Proof.
  unfold get_score_color, assess_risk. cbn [fst].
  destruct (Qgt_bool score threshold); [tauto|].
  destruct (Qgt_bool score (threshold * 0.7)); split; discriminate.
Qed.

Lemma get_score_color_cases (s t : Q) :
  (t < s /\ get_score_color s t = "danger") \/
  (s <= t /\ t * 0.7 < s /\ get_score_color s t = "warning") \/
  (s <= t /\ s <= t * 0.7 /\ get_score_color s t = "success").
Proof.
  unfold get_score_color.
  destruct (Qgt_bool s t) eqn:E1.
  - left. apply Qgt_bool_true in E1. split; [exact E1|reflexivity].
  - right. apply Qgt_bool_false in E1.
    destruct (Qgt_bool s (t * 0.7)) eqn:E2.
    + left. apply Qgt_bool_true in E2. repeat split; assumption.
    + right. apply Qgt_bool_false in E2. repeat split; assumption.
Qed.

(** X2: for a fixed threshold, of any sign, a higher score never gets a
    milder colour. *)
Theorem score_color_monotone (s1 s2 threshold : Q) :
  s1 <= s2 ->
  (severity (get_score_color s1 threshold)
   <= severity (get_score_color s2 threshold))%nat.
Proof.
  intros H.
  destruct (get_score_color_cases s1 threshold)
    as [[A1 E1]|[(A1 & B1 & E1)|(A1 & B1 & E1)]];
  destruct (get_score_color_cases s2 threshold)
    as [[A2 E2]|[(A2 & B2 & E2)|(A2 & B2 & E2)]];
  rewrite E1, E2; cbn; try lia; exfalso; lra.
Qed.

(** X3: the warning colour needs a positive threshold and a positive score:
    with a threshold of 0 or below a score is either danger or success. *)
Theorem score_color_warning_positive (score threshold : Q) :
  get_score_color score threshold = "warning" -> 0 < threshold /\ 0 < score.
Proof.
  intros H.
  destruct (get_score_color_cases score threshold)
    as [[A E]|[(A & B & E)|(A & B & E)]];
    rewrite E in H; try discriminate H.
  split; lra.
Qed.

(** ** More on the aggregation *)

Lemma three_counts_le (series : list pyobj) :
  (value_counts_get series "Positive" + value_counts_get series "Negative"
   + value_counts_get series "Neutral" <= Z.of_nat (List.length series))%Z.
Proof.
  unfold value_counts_get. induction series as [|o l IH]; [cbn; lia|].
  cbn [filter List.length].
  destruct o as [| |s|r]; cbn [py_str_eqb List.length]; try lia.
  destruct (String.eqb s "Positive") eqn:EP.
  - apply String.eqb_eq in EP. subst s. cbn [String.eqb Ascii.eqb Bool.eqb].
    cbn [List.length]. lia.
  - destruct (String.eqb s "Negative") eqn:EN.
    + apply String.eqb_eq in EN. subst s. cbn [String.eqb Ascii.eqb Bool.eqb].
      cbn [List.length]. lia.
    + destruct (String.eqb s "Neutral"); cbn [List.length]; lia.
Qed.

Lemma ratio_le_1 (c t : Z) :
  (0 <= c <= t)%Z -> (0 < t)%Z -> inject_Z c / inject_Z t <= 1.
Proof.
  intros Hc Ht. apply Qle_shift_div_r.
  - unfold Qlt. simpl. lia.
  - rewrite Qmult_1_l. rewrite <- Zle_Qle. lia.
Qed.

Lemma pct_value_le_100 (c t : Z) : (0 <= c <= t)%Z -> pct_value c t <= 100.
Proof.
  intros Hc. unfold pct_value. destruct (0 <? t)%Z eqn:E; [|discriminate].
  apply Z.ltb_lt in E. pose proof (ratio_le_1 c t Hc E). lra.
Qed.

Lemma pct_value_add (a b c t : Z) :
  pct_value a t + pct_value b t + pct_value c t == pct_value (a + b + c) t.
Proof.
  unfold pct_value. destruct (0 <? t)%Z eqn:E; [|reflexivity].
  apply Z.ltb_lt in E. rewrite !inject_Z_plus.
  field. apply inject_Z_pos_nonzero. exact E.
Qed.

Lemma pct_value_pos (c t : Z) : (0 < c)%Z -> (0 < t)%Z -> 0 < pct_value c t.
Proof.
  intros Hc Ht. unfold pct_value.
  destruct (0 <? t)%Z eqn:E; [|apply Z.ltb_ge in E; lia].
  assert (H : 0 < inject_Z c / inject_Z t).
  { apply Qlt_shift_div_l; [unfold Qlt; simpl; lia|].
    rewrite Qmult_0_l. unfold Qlt. simpl. lia. }
  lra.
Qed.

Lemma share_bounds (P N : Q) : 0 <= P -> 0 <= N -> 0 < P + N -> 0 <= P / (P + N) <= 1.
Proof.
  intros HP HN H. split.
  - apply Qdiv_nonneg; assumption.
  - apply Qle_shift_div_r; [exact H|]. lra.
Qed.

Lemma py_min_cases (a b : Q) :
  (b < a /\ py_min a b = b) \/ (a <= b /\ py_min a b = a).
Proof.
  unfold py_min. destruct (Qgt_bool a b) eqn:E.
  - left. apply Qgt_bool_true in E. split; [exact E|reflexivity].
  - right. apply Qgt_bool_false in E. split; [exact E|reflexivity].
Qed.

Lemma rating_value_cases (P N U : Q) (tot : Z) :
  0 <= P -> 0 <= N ->
  ((tot <= 0)%Z /\ rating_value P N U tot = 0) \/
  ((0 < tot)%Z /\ 0 < P + N /\
   rating_value P N U tot = py_min 100 (P + U * (P / (P + N))) /\
   0 <= P / (P + N) <= 1) \/
  ((0 < tot)%Z /\ P == 0 /\ N == 0 /\ rating_value P N U tot = py_min 100 (P + 0)).
Proof.
  intros HP HN. unfold rating_value.
  destruct (0 <? tot)%Z eqn:Et.
  - apply Z.ltb_lt in Et. right.
    destruct (Qgt_bool (P + N) 0) eqn:E.
    + left. apply Qgt_bool_true in E. repeat split; try assumption;
        apply share_bounds; assumption.
    + right. apply Qgt_bool_false in E. repeat split; try assumption; lra.
  - apply Z.ltb_ge in Et. left. split; [exact Et|reflexivity].
Qed.

(** X4: the aggregation returns exactly on the frames that carry the
    sentiment column; on the others it raises [KeyError('sentiment')], and
    nothing else. *)
Theorem aggregate_returns_iff_column (df : DataFrame) (ad : option AppDetails) :
  ((exists m, calculate_sentiment_metrics df ad = Returns m)
   <-> has_column "sentiment" df = true) /\
  ((exists e, calculate_sentiment_metrics df ad = Raises e)
   <-> has_column "sentiment" df = false) /\
  (forall e, calculate_sentiment_metrics df ad = Raises e -> e = KeyError "sentiment").
Proof.
  destruct (has_column "sentiment" df) eqn:Hc.
  - rewrite calculate_sentiment_metrics_returns by exact Hc.
    split; [|split].
    + split; [reflexivity|]. intros _. eexists. reflexivity.
    + split; [intros [e He]; discriminate He|discriminate].
    + intros e He. discriminate He.
  - rewrite calculate_sentiment_metrics_raises by exact Hc.
    split; [|split].
    + split; [intros [m Hm]; discriminate Hm|discriminate].
    + split; [reflexivity|]. intros _. eexists. reflexivity.
    + intros e He. injection He as <-. reflexivity.
Qed.

Lemma pct_closed_bounds (df : DataFrame) :
  let l := map sentiment (rows df) in
  let P := pct_value (value_counts_get l "Positive") (len df) in
  let N := pct_value (value_counts_get l "Negative") (len df) in
  let U := pct_value (value_counts_get l "Neutral") (len df) in
  0 <= P <= 100 /\ 0 <= N <= 100 /\ 0 <= U <= 100 /\ P + N + U <= 100.
Proof.
  intros l P N U. unfold P, N, U.
  pose proof (three_counts_le l) as Hs.
  pose proof (value_counts_get_nonneg l "Positive") as H1.
  pose proof (value_counts_get_nonneg l "Negative") as H2.
  pose proof (value_counts_get_nonneg l "Neutral") as H3.
  assert (Hl : Z.of_nat (List.length l) = len df).
  { unfold l, len. rewrite length_map. reflexivity. }
  rewrite Hl in Hs.
  repeat split; try (apply pct_value_nonneg; assumption);
    try (apply pct_value_le_100; lia).
  rewrite pct_value_add. apply pct_value_le_100. lia.
Qed.

(** X5: whatever the sentiment cells hold, each percentage lies between 0 and
    100, and the three label counts, none of them negative, together never
    exceed the number of rows. *)
Theorem percentages_bounded (df : DataFrame) (ad : option AppDetails) :
  has_column "sentiment" df = true ->
  exists m, calculate_sentiment_metrics df ad = Returns m /\
    0 <= positive_pct m <= 100 /\
    0 <= negative_pct m <= 100 /\
    0 <= neutral_pct m <= 100 /\
    (0 <= sentiment_counts m "Positive")%Z /\
    (0 <= sentiment_counts m "Negative")%Z /\
    (0 <= sentiment_counts m "Neutral")%Z /\
    (sentiment_counts m "Positive" + sentiment_counts m "Negative"
     + sentiment_counts m "Neutral" <= len df)%Z.
Proof.
  intros Hc. eexists. split.
  - apply calculate_sentiment_metrics_returns. exact Hc.
  - cbn [positive_pct negative_pct neutral_pct sentiment_counts].
    destruct (pct_closed_bounds df) as (HP & HN & HU & _).
    split; [exact HP|]. split; [exact HN|]. split; [exact HU|].
    split; [apply value_counts_get_nonneg|].
    split; [apply value_counts_get_nonneg|].
    split; [apply value_counts_get_nonneg|].
    pose proof (three_counts_le (map sentiment (rows df))) as Hs.
    rewrite length_map in Hs. exact Hs.
Qed.

Lemma rating_closed_between (df : DataFrame) :
  let l := map sentiment (rows df) in
  let P := pct_value (value_counts_get l "Positive") (len df) in
  let N := pct_value (value_counts_get l "Negative") (len df) in
  let U := pct_value (value_counts_get l "Neutral") (len df) in
  let score :=
    rating_value P N U
      (value_counts_get l "Positive" + value_counts_get l "Negative"
       + value_counts_get l "Neutral") in
  P <= score /\ score <= P + U.
Proof.
  intros l P N U score.
  destruct (pct_closed_bounds df) as ([HP0 HP1] & [HN0 _] & [HU0 _] & _).
  fold l in HP0, HP1, HN0, HU0. fold P in HP0, HP1. fold N in HN0. fold U in HU0.
  unfold score.
  destruct (rating_value_cases P N U
              (value_counts_get l "Positive" + value_counts_get l "Negative"
               + value_counts_get l "Neutral") HP0 HN0)
    as [[Ht E]|[(Ht & Hpn & E & Hr0 & Hr1)|(Ht & EP & EN & E)]]; rewrite E.
  - pose proof (value_counts_get_nonneg l "Positive") as H1.
    pose proof (value_counts_get_nonneg l "Negative") as H2.
    pose proof (value_counts_get_nonneg l "Neutral") as H3.
    assert (EP : P == 0).
    { unfold P. replace (value_counts_get l "Positive") with 0%Z by lia.
      apply pct_value_zero. }
    split; lra.
  - set (r := P / (P + N)) in *.
    assert (Hc1 : 0 <= U * r) by (apply Qmult_le_0_compat; assumption).
    assert (Hc2 : U * r <= U).
    { rewrite <- (Qmult_1_r U) at 2. rewrite !(Qmult_comm U).
      apply Qmult_le_compat_r; assumption. }
    destruct (py_min_cases 100 (P + U * r)) as [[Hlt Em]|[Hle Em]];
      rewrite Em; split; lra.
  - destruct (py_min_cases 100 (P + 0)) as [[Hlt Em]|[Hle Em]];
      rewrite Em; split; lra.
Qed.

(** X6: the composite score is never below the positive percentage and never
    above the positive and neutral percentages together. *)
Theorem composite_between (df : DataFrame) (ad : option AppDetails) :
  has_column "sentiment" df = true ->
  exists m, calculate_sentiment_metrics df ad = Returns m /\
    positive_pct m <= app_rating_score m /\
    app_rating_score m <= positive_pct m + neutral_pct m.
Proof.
  intros Hc. eexists. split.
  - apply calculate_sentiment_metrics_returns. exact Hc.
  - cbn [positive_pct neutral_pct app_rating_score]. apply rating_closed_between.
Qed.

Lemma aggregate_closed_zero_positive (df : DataFrame) :
  let l := map sentiment (rows df) in
  let P := pct_value (value_counts_get l "Positive") (len df) in
  let N := pct_value (value_counts_get l "Negative") (len df) in
  let U := pct_value (value_counts_get l "Neutral") (len df) in
  value_counts_get l "Positive" = 0%Z ->
  rating_value P N U
    (value_counts_get l "Positive" + value_counts_get l "Negative"
     + value_counts_get l "Neutral") == 0.
Proof.
  intros l P N U H0.
  destruct (pct_closed_bounds df) as ([HP0 _] & [HN0 _] & [HU0 _] & _).
  fold l in HP0, HN0, HU0. fold P in HP0. fold N in HN0. fold U in HU0.
  assert (EP : P == 0) by (unfold P; rewrite H0; apply pct_value_zero).
  destruct (rating_value_cases P N U
              (value_counts_get l "Positive" + value_counts_get l "Negative"
               + value_counts_get l "Neutral") HP0 HN0)
    as [[Ht E]|[(Ht & Hpn & E & Hr0 & Hr1)|(Ht & _ & EN & E)]]; rewrite E.
  - reflexivity.
  - assert (Er : P / (P + N) == 0).
    { unfold Qdiv. rewrite EP at 1. apply Qmult_0_l. }
    assert (Ex : P + U * (P / (P + N)) == 0) by (rewrite Er, EP; ring).
    destruct (py_min_cases 100 (P + U * (P / (P + N)))) as [[Hlt Em]|[Hle Em]];
      rewrite Em; [exact Ex|]. exfalso. rewrite Ex in Hle. revert Hle.
    apply Qlt_not_le. reflexivity.
  - destruct (py_min_cases 100 (P + 0)) as [[Hlt Em]|[Hle Em]]; rewrite Em; lra.
Qed.

Lemma py_min_100_Qeq (x y : Q) : x == y -> py_min 100 x == Qmin 100 y.
Proof.
  intros E. rewrite py_min_Qmin.
  destruct (Qlt_le_dec x 100) as [H|H].
  - rewrite (Q.min_r 100 x) by (apply Qlt_le_weak; exact H).
    rewrite (Q.min_r 100 y) by (rewrite <- E; apply Qlt_le_weak; exact H).
    exact E.
  - rewrite (Q.min_l 100 x) by exact H.
    rewrite (Q.min_l 100 y) by (rewrite <- E; exact H).
    reflexivity.
Qed.

Lemma aggregate_closed_no_negative (df : DataFrame) :
  let l := map sentiment (rows df) in
  let P := pct_value (value_counts_get l "Positive") (len df) in
  let N := pct_value (value_counts_get l "Negative") (len df) in
  let U := pct_value (value_counts_get l "Neutral") (len df) in
  value_counts_get l "Negative" = 0%Z ->
  (0 < value_counts_get l "Positive")%Z ->
  rating_value P N U
    (value_counts_get l "Positive" + value_counts_get l "Negative"
     + value_counts_get l "Neutral") == Qmin 100 (P + U).
Proof.
  intros l P N U HN Hpos.
  destruct (pct_closed_bounds df) as ([HP0 _] & [HN0 _] & [HU0 _] & _).
  fold l in HP0, HN0, HU0. fold P in HP0. fold N in HN0. fold U in HU0.
  pose proof (three_counts_le l) as Hle.
  assert (Hlen : Z.of_nat (List.length l) = len df).
  { unfold l, len. rewrite length_map. reflexivity. }
  rewrite Hlen in Hle.
  pose proof (value_counts_get_nonneg l "Neutral") as H3.
  assert (Ht : (0 < len df)%Z) by lia.
  assert (EN : N == 0) by (unfold N; rewrite HN; apply pct_value_zero).
  assert (HP : 0 < P) by (apply pct_value_pos; assumption).
  destruct (rating_value_cases P N U
              (value_counts_get l "Positive" + value_counts_get l "Negative"
               + value_counts_get l "Neutral") HP0 HN0)
    as [[Ht' E]|[(Ht' & Hpn & E & Hr0 & Hr1)|(Ht' & EP & _ & E)]].
  - lia.
  - rewrite E. apply py_min_100_Qeq.
    assert (Er : P / (P + N) == 1).
    { rewrite EN. field. intro Hz. rewrite Hz in HP. revert HP. apply Qlt_irrefl. }
    rewrite Er. ring.
  - exfalso. rewrite EP in HP. revert HP. apply Qlt_irrefl.
Qed.

(** X7: without any Positive review the composite score is 0; with at least
    one Positive review and no Negative one the whole neutral share is
    credited: the score is [min(100, positive_pct + neutral_pct)]. *)
Theorem composite_extremes (df : DataFrame) (ad : option AppDetails) :
  has_column "sentiment" df = true ->
  exists m, calculate_sentiment_metrics df ad = Returns m /\
    (sentiment_counts m "Positive" = 0%Z -> app_rating_score m == 0) /\
    (sentiment_counts m "Negative" = 0%Z ->
     (0 < sentiment_counts m "Positive")%Z ->
     app_rating_score m == Qmin 100 (positive_pct m + neutral_pct m)).
Proof.
  intros Hc. eexists. split.
  - apply calculate_sentiment_metrics_returns. exact Hc.
  - cbn [sentiment_counts app_rating_score positive_pct neutral_pct]. split.
    + apply aggregate_closed_zero_positive.
    + apply aggregate_closed_no_negative.
Qed.

Lemma filter_length_perm {A : Type} (f : A -> bool) (l l' : list A) :
  Permutation l l' -> List.length (filter f l) = List.length (filter f l').
Proof.
  induction 1 as [|x l l' _ IH|x y l|l l' l'' _ IH1 _ IH2].
  - reflexivity.
  - cbn [filter]. destruct (f x); cbn [List.length]; rewrite IH; reflexivity.
  - cbn [filter]. destruct (f x), (f y); reflexivity.
  - rewrite IH1. exact IH2.
Qed.

(** X8: the aggregation does not depend on the order of the reviews: sorting
    the frame leaves every output unchanged. *)
Theorem aggregate_order_independent (df1 df2 : DataFrame) (ad : option AppDetails) :
  Permutation (rows df1) (rows df2) ->
  has_column "sentiment" df1 = true ->
  has_column "sentiment" df2 = true ->
  exists m1 m2,
    calculate_sentiment_metrics df1 ad = Returns m1 /\
    calculate_sentiment_metrics df2 ad = Returns m2 /\
    (forall label, sentiment_counts m1 label = sentiment_counts m2 label) /\
    positive_pct m1 = positive_pct m2 /\
    negative_pct m1 = negative_pct m2 /\
    neutral_pct m1 = neutral_pct m2 /\
    app_rating_score m1 = app_rating_score m2 /\
    playstore_score m1 = playstore_score m2.
Proof.
  intros Hp H1 H2. do 2 eexists.
  split; [apply calculate_sentiment_metrics_returns; exact H1|].
  split; [apply calculate_sentiment_metrics_returns; exact H2|].
  cbn [sentiment_counts positive_pct negative_pct neutral_pct app_rating_score
       playstore_score].
  assert (Hl : len df1 = len df2).
  { unfold len. rewrite (Permutation_length Hp). reflexivity. }
  assert (Hc : forall label,
             value_counts_get (map sentiment (rows df1)) label
             = value_counts_get (map sentiment (rows df2)) label).
  { intros label. unfold value_counts_get. f_equal.
    apply filter_length_perm. apply Permutation_map. exact Hp. }
  rewrite Hl, !Hc. repeat split; try reflexivity. exact Hc.
Qed.

(** ** More on the classification report *)

Lemma ratio_value_unit (num den : Z) :
  (0 <= num <= den)%Z -> 0 <= ratio_value num den <= 1.
Proof.
  intros H. split; [apply ratio_value_nonneg; lia|].
  unfold ratio_value. destruct (0 <? den)%Z eqn:E; [|discriminate].
  apply Z.ltb_lt in E. apply ratio_le_1; assumption.
Qed.

Lemma f1_value_unit (p r : Q) :
  0 <= p <= 1 -> 0 <= r <= 1 -> 0 <= f1_value p r <= 1.
Proof.
  intros [Hp0 Hp1] [Hr0 Hr1]. unfold f1_value.
  destruct (Qgt_bool (p + r) 0) eqn:E; [|split; discriminate].
  apply Qgt_bool_true in E.
  assert (Hpr : 0 <= p * r) by (apply Qmult_le_0_compat; assumption).
  assert (H1 : p * r <= p).
  { rewrite <- (Qmult_1_r p) at 2. rewrite !(Qmult_comm p).
    apply Qmult_le_compat_r; assumption. }
  assert (H2 : p * r <= r).
  { rewrite <- (Qmult_1_l r) at 2. apply Qmult_le_compat_r; assumption. }
  split.
  - apply Qdiv_nonneg; [|exact E]. lra.
  - apply Qle_shift_div_r; [exact E|]. lra.
Qed.

Lemma report_value_unit (df : DataFrame) (sample_each : Z) :
  let r := report_value df sample_each in
  0 <= accuracy r <= 1 /\ 0 <= precision r <= 1 /\
  0 <= recall r <= 1 /\ 0 <= f1 r <= 1.
Proof.
  unfold report_value. cbn [accuracy precision recall f1].
  pose proof (count_cell_nonneg cell_tp df) as H1.
  pose proof (count_cell_nonneg cell_tn df) as H2.
  pose proof (count_cell_nonneg cell_fp df) as H3.
  pose proof (count_cell_nonneg cell_fn df) as H4.
  assert (Hp : 0 <= ratio_value (count_cell cell_tp df)
                      (count_cell cell_tp df + count_cell cell_fp df) <= 1)
    by (apply ratio_value_unit; lia).
  assert (Hr : 0 <= ratio_value (count_cell cell_tp df)
                      (count_cell cell_tp df + count_cell cell_fn df) <= 1)
    by (apply ratio_value_unit; lia).
  split; [apply ratio_value_unit; lia|].
  split; [exact Hp|]. split; [exact Hr|].
  apply f1_value_unit; assumption.
Qed.

(** X9: accuracy, precision, recall and F1 always lie between 0 and 1. *)
Theorem classification_metrics_unit_interval
  (odf : option DataFrame) (sample_each : Z) :
  exists r, compute_classification_metrics odf sample_each = Returns r /\
    0 <= accuracy r <= 1 /\ 0 <= precision r <= 1 /\
    0 <= recall r <= 1 /\ 0 <= f1 r <= 1.
Proof.
  destruct (compute_classification_metrics_cases odf sample_each)
    as [Hz | (df & _ & _ & _ & _ & Hr)].
  - exists zero_report. split; [exact Hz|]. cbn. repeat split; discriminate.
  - eexists. split; [exact Hr|]. apply report_value_unit.
Qed.

Lemma gt_negative_fillna (o : pyobj) : gt_negative (fillna_empty o) = gt_negative o.
Proof. destruct o; try reflexivity; apply gt_negative_empty. Qed.

Lemma py_str_eqb_fillna (o : pyobj) :
  py_str_eqb (fillna_empty o) "Negative" = py_str_eqb o "Negative".
Proof. destruct o; reflexivity. Qed.

Lemma py_str_eqb_true (o : pyobj) (s : string) :
  py_str_eqb o s = true -> o = PyStr s.
Proof.
  destruct o as [| |t|r]; cbn [py_str_eqb]; try discriminate.
  intros H. apply String.eqb_eq in H. subst t. reflexivity.
Qed.

Lemma Forall_head {A : Type} (P : A -> Prop) (n : Z) (l : list A) :
  Forall P l -> Forall P (head n l).
Proof.
  intros H. unfold head.
  assert (Hf : forall k, Forall P (firstn k l)).
  { intros k. revert l H. induction k as [|k IH]; intros l H; [constructor|].
    destruct H as [|x l Hx Hl]; [constructor|].
    cbn [firstn]. constructor; [exact Hx|apply IH; exact Hl]. }
  destruct (0 <=? n)%Z; apply Hf.
Qed.

Lemma Forall_filter_cell {A : Type} (f : A -> bool) (l : list A) :
  Forall (fun x => f x = true) (filter f l).
Proof. apply Forall_forall. intros x Hx. apply filter_In in Hx. apply Hx. Qed.

Lemma sample_of_Forall (df : DataFrame) (n : Z) (cell : Row -> bool)
  (P : Example -> Prop) :
  (forall r, cell r = true -> P (example_of df r)) ->
  Forall P (sample_of df n cell).
Proof.
  intros H. unfold sample_of. apply Forall_map. apply Forall_head.
  eapply Forall_impl; [|apply Forall_filter_cell]. exact H.
Qed.

(** X10: the example rows agree with the cell they are listed under: those
    under tp and fn carry the keyword flag, those under tn and fp do not, and
    those under tp and fp are predicted Negative. *)
Theorem examples_match_their_cell (odf : option DataFrame) (sample_each : Z) :
  exists r, compute_classification_metrics odf sample_each = Returns r /\
    Forall (fun e => ex_contains_negative_keyword e = true /\
                     ex_predicted e = "Negative") (examples_tp (examples r)) /\
    Forall (fun e => ex_contains_negative_keyword e = false)
           (examples_tn (examples r)) /\
    Forall (fun e => ex_contains_negative_keyword e = false /\
                     ex_predicted e = "Negative") (examples_fp (examples r)) /\
    Forall (fun e => ex_contains_negative_keyword e = true)
           (examples_fn (examples r)).
Proof.
  destruct (compute_classification_metrics_cases odf sample_each)
    as [Hz | (df & _ & _ & Hc & Hs & Hr)].
  - exists zero_report. split; [exact Hz|]. cbn. repeat split; constructor.
  - eexists. split; [exact Hr|].
    unfold report_value. cbn [examples examples_tp examples_tn examples_fp examples_fn].
    assert (Hk : forall r, ex_contains_negative_keyword (example_of df r)
                           = row_truth r).
    { intros r. unfold example_of, row_get, row_truth.
      cbn [ex_contains_negative_keyword]. rewrite Hc.
      symmetry. apply gt_negative_fillna. }
    assert (Hn : forall r, row_predicted r = true ->
                           ex_predicted (example_of df r) = "Negative").
    { intros r H. unfold row_predicted in H. rewrite py_str_eqb_fillna in H.
      apply py_str_eqb_true in H. unfold example_of, row_get.
      cbn [ex_predicted]. rewrite Hs, H. reflexivity. }
    repeat split; apply sample_of_Forall; intros r H; rewrite ?Hk;
      unfold cell_tp, cell_tn, cell_fp, cell_fn in H;
      destruct (row_truth r) eqn:Et, (row_predicted r) eqn:Ep;
      try discriminate H; try reflexivity;
      (split; [reflexivity|apply Hn; exact Ep]).
Qed.

Lemma filter_map_length {A B : Type} (f : A -> B) (g : B -> bool) (l : list A) :
  List.length (filter g (map f l)) = List.length (filter (fun x => g (f x)) l).
Proof.
  induction l as [|x l IH]; [reflexivity|].
  cbn [map filter]. destruct (g (f x)); cbn [List.length]; rewrite IH; reflexivity.
Qed.

Lemma predicted_split (l : list Row) :
  (List.length (filter cell_tp l) + List.length (filter cell_fp l)
   = List.length (filter row_predicted l))%nat.
Proof.
  induction l as [|x l IH]; [reflexivity|].
  cbn [filter]. unfold cell_tp, cell_fp in *.
  destruct (row_truth x), (row_predicted x); cbn [andb negb List.length]; lia.
Qed.

(** X11: on a frame with the content and sentiment columns, the reviews the
    report counts as predicted Negative (tp + fp) are exactly those the
    aggregation counts under the Negative label. *)
Theorem predicted_negative_is_negative_count
  (df : DataFrame) (ad : option AppDetails) (sample_each : Z) :
  has_column "content" df = true ->
  has_column "sentiment" df = true ->
  exists r m,
    compute_classification_metrics (Some df) sample_each = Returns r /\
    calculate_sentiment_metrics df ad = Returns m /\
    (tp (confusion r) + fp (confusion r))%Z = sentiment_counts m "Negative".
Proof.
  intros Hc Hs.
  assert (Hcount : (count_cell cell_tp df + count_cell cell_fp df)%Z
                   = value_counts_get (map sentiment (rows df)) "Negative").
  { unfold count_cell, value_counts_get. rewrite filter_map_length.
    rewrite <- Nat2Z.inj_add, predicted_split. do 2 f_equal.
    apply filter_ext. intros r. apply py_str_eqb_fillna. }
  destruct (compute_classification_metrics_cases (Some df) sample_each)
    as [Hz | (df' & Hdf & _ & _ & _ & Hr)].
  - exists zero_report. eexists. split; [exact Hz|].
    split; [apply calculate_sentiment_metrics_returns; exact Hs|].
    cbn [sentiment_counts]. rewrite <- Hcount.
    destruct (empty df) eqn:He.
    + unfold count_cell. rewrite (empty_with_column _ _ Hc He). reflexivity.
    + unfold compute_classification_metrics in Hz.
      rewrite classification_body_returns in Hz by assumption.
      cbn [try_except] in Hz. apply Returns_inj in Hz.
      rewrite <- Hz. reflexivity.
  - injection Hdf as <-. do 2 eexists. split; [exact Hr|].
    split; [apply calculate_sentiment_metrics_returns; exact Hs|].
    cbn [sentiment_counts]. rewrite <- Hcount. reflexivity.
Qed.

(** X12: the confusion counts and the four metrics do not depend on the
    order of the reviews. *)
Theorem classification_order_independent
  (df1 df2 : DataFrame) (sample_each : Z) :
  Permutation (rows df1) (rows df2) ->
  has_column "content" df1 = true -> has_column "sentiment" df1 = true ->
  has_column "content" df2 = true -> has_column "sentiment" df2 = true ->
  exists r1 r2,
    compute_classification_metrics (Some df1) sample_each = Returns r1 /\
    compute_classification_metrics (Some df2) sample_each = Returns r2 /\
    confusion r1 = confusion r2 /\
    accuracy r1 = accuracy r2 /\ precision r1 = precision r2 /\
    recall r1 = recall r2 /\ f1 r1 = f1 r2.
Proof.
  intros Hp Hc1 Hs1 Hc2 Hs2.
  assert (Hcell : forall cell, count_cell cell df1 = count_cell cell df2).
  { intros cell. unfold count_cell. f_equal. apply filter_length_perm. exact Hp. }
  assert (Hret : forall df, has_column "content" df = true ->
             has_column "sentiment" df = true ->
             exists r, compute_classification_metrics (Some df) sample_each
                       = Returns r /\
               confusion r = confusion (report_value df sample_each) /\
               accuracy r = accuracy (report_value df sample_each) /\
               precision r = precision (report_value df sample_each) /\
               recall r = recall (report_value df sample_each) /\
               f1 r = f1 (report_value df sample_each)).
  { intros df Hc Hs. unfold compute_classification_metrics.
    destruct (empty df) eqn:He.
    - exists zero_report. unfold classification_body. rewrite He.
      split; [reflexivity|].
      unfold report_value, count_cell.
      rewrite (empty_with_column _ _ Hc He). repeat split; reflexivity.
    - rewrite classification_body_returns by assumption.
      eexists. split; [reflexivity|]. repeat split; reflexivity. }
  destruct (Hret df1 Hc1 Hs1) as (r1 & E1 & A1 & B1 & C1 & D1 & F1).
  destruct (Hret df2 Hc2 Hs2) as (r2 & E2 & A2 & B2 & C2 & D2 & F2).
  exists r1, r2. split; [exact E1|]. split; [exact E2|].
  rewrite A1, A2, B1, B2, C1, C2, D1, D2, F1, F2.
  unfold report_value. cbn [confusion accuracy precision recall f1].
  rewrite !Hcell. repeat split; reflexivity.
Qed.

(** ** Keyword listing *)

Lemma filter_nonempty_existsb {A : Type} (f : A -> bool) (l : list A) :
  filter f l <> [] <-> existsb f l = true.
Proof.
  induction l as [|x l IH]; cbn [filter existsb].
  - split; [intros H; contradiction|discriminate].
  - destruct (f x); cbn [orb]; [|exact IH].
    split; [reflexivity|discriminate].
Qed.

Lemma NEGATIVE_KEYWORDS_NoDup : NoDup NEGATIVE_KEYWORDS.
Proof.
  unfold NEGATIVE_KEYWORDS.
  repeat (constructor; [cbn [In]; intuition discriminate|]). constructor.
Qed.

Lemma lower_ascii_idempotent (c : ascii) : lower_ascii (lower_ascii c) = lower_ascii c.
Proof.
  destruct c as [b0 b1 b2 b3 b4 b5 b6 b7].
  destruct b0, b1, b2, b3, b4, b5, b6, b7; reflexivity.
Qed.

Lemma lower_idempotent (s : string) : lower (lower s) = lower s.
Proof.
  induction s as [|c s IH]; [reflexivity|].
  cbn [lower]. rewrite lower_ascii_idempotent, IH. reflexivity.
Qed.

(** X13: the keyword listing, the weak ground truth and the polarity
    override agree: the list is non-empty exactly when the ground truth is
    true, and then the polarity is -0.8; with an empty list a string gets the
    polarity of the generic model.  The list has no duplicates. *)
Theorem detect_risk_keywords_agrees (TextBlob_polarity : string -> Q) (text : pyobj) :
  (detect_risk_keywords text <> [] <-> gt_negative text = true) /\
  (detect_risk_keywords text <> [] ->
   analyze_sentiment TextBlob_polarity text = -0.8) /\
  (forall s, text = PyStr s -> detect_risk_keywords text = [] ->
   analyze_sentiment TextBlob_polarity text = TextBlob_polarity s) /\
  NoDup (detect_risk_keywords text).
Proof.
  destruct text as [| |s|r];
    try (cbn [detect_risk_keywords gt_negative analyze_sentiment];
         repeat split; try discriminate; try constructor;
         intros H; contradiction).
  unfold detect_risk_keywords, gt_negative, analyze_sentiment. cbv zeta.
  pose proof (filter_nonempty_existsb (fun k => contains k (lower s))
                NEGATIVE_KEYWORDS) as Hf.
  split; [exact Hf|]. split; [|split].
  - intros H. apply Hf in H. rewrite H. reflexivity.
  - intros s' Hs He. injection Hs as <-.
    destruct (existsb (fun k => contains k (lower s)) NEGATIVE_KEYWORDS) eqn:E;
      [|reflexivity].
    exfalso. apply (proj2 Hf); [reflexivity|exact He].
  - apply NoDup_filter. exact NEGATIVE_KEYWORDS_NoDup.
Qed.

(** X14: keyword detection ignores letter case: lower-casing a text first
    changes neither the list of keywords found nor the ground truth. *)
Theorem keyword_detection_ignores_case (s : string) :
  detect_risk_keywords (PyStr (lower s)) = detect_risk_keywords (PyStr s) /\
  gt_negative (PyStr (lower s)) = gt_negative (PyStr s).
Proof.
  unfold detect_risk_keywords, gt_negative. cbv zeta.
  rewrite lower_idempotent. split; reflexivity.
Qed.

(** ** The labelling step followed by the aggregation *)

Lemma existsb_with_column (c : string) (cols : list string) :
  existsb (String.eqb c) (with_column c cols) = true.
Proof.
  unfold with_column. destruct (existsb (String.eqb c) cols) eqn:E; [exact E|].
  rewrite existsb_app. cbn [existsb]. rewrite String.eqb_refl.
  rewrite orb_true_r. reflexivity.
Qed.

Lemma label_is_sentiment_label (p a b : Q) :
  is_sentiment_label (PyStr (label p a b)) = true.
Proof.
  unfold label. destruct (Qgt_bool p a); [reflexivity|].
  destruct (Qgt_bool b p); reflexivity.
Qed.

Lemma empty_false_rows (df : DataFrame) : empty df = false -> rows df <> [].
Proof. unfold empty. destruct (rows df); [discriminate|]. intros _. discriminate. Qed.

Lemma empty_false_intro (c : string) (df : DataFrame) :
  has_column c df = true -> rows df <> [] -> empty df = false.
Proof.
  unfold has_column, empty. intros Hc Hr.
  destruct (rows df); [contradiction|].
  destruct (columns df); [discriminate Hc|reflexivity].
Qed.

Lemma labeled_counts_total (df : DataFrame) :
  Forall (fun r => is_sentiment_label (sentiment r) = true) (rows df) ->
  let l := map sentiment (rows df) in
  (value_counts_get l "Positive" + value_counts_get l "Negative"
   + value_counts_get l "Neutral" = len df)%Z.
Proof.
  intros Hl l. unfold len. rewrite <- (length_map sentiment (rows df)).
  apply labels_partition. apply Forall_map. exact Hl.
Qed.

Lemma neutral_series_counts (l : list Row) :
  let series := map (fun _ : Row => PyStr "Neutral") l in
  value_counts_get series "Positive" = 0%Z /\
  value_counts_get series "Negative" = 0%Z /\
  value_counts_get series "Neutral" = Z.of_nat (List.length l).
Proof.
  unfold value_counts_get. induction l as [|x l (H1 & H2 & H3)].
  - repeat split; reflexivity.
  - cbn [map filter py_str_eqb String.eqb Ascii.eqb Bool.eqb List.length].
    repeat split; [exact H1|exact H2|].
    apply Nat2Z.inj in H3. rewrite H3. reflexivity.
Qed.

Section Pipeline.

Variable TextBlob_polarity : string -> Q.

Lemma label_reviews_runs (df : DataFrame) :
  has_column "content" df = true -> rows df <> [] ->
  label_reviews TextBlob_polarity df
  = mkDataFrame (with_column "sentiment" (with_column "polarity" (columns df)))
                (map (label_row TextBlob_polarity) (rows df)).
Proof.
  intros Hc Hr. unfold label_reviews.
  rewrite Hc, (empty_false_intro _ _ Hc Hr). reflexivity.
Qed.

Lemma label_rows_labeled (l : list Row) :
  Forall (fun r => is_sentiment_label (sentiment r) = true)
         (map (label_row TextBlob_polarity) l).
Proof.
  apply Forall_map. apply Forall_forall. intros r _.
  apply label_is_sentiment_label.
Qed.

(** X15: in [analyze_direct], a fetched frame with the content column and at
    least one review comes out of the labelling step as a labelled
    collection of the same size, on which the aggregation returns and every
    review is counted under exactly one of the three labels: the three
    counts add up to the number of fetched reviews. *)
Theorem analysis_percentages_sum (df : DataFrame) (ad : option AppDetails) :
  has_column "content" df = true ->
  rows df <> [] ->
  labeled_collection (label_reviews TextBlob_polarity df) /\
  len (label_reviews TextBlob_polarity df) = len df /\
  exists m,
    calculate_sentiment_metrics (label_reviews TextBlob_polarity df) ad = Returns m /\
    (sentiment_counts m "Positive" + sentiment_counts m "Negative"
     + sentiment_counts m "Neutral" = len df)%Z.
Proof.
  intros Hc Hr. rewrite (label_reviews_runs df Hc Hr).
  set (df' := mkDataFrame _ _).
  assert (Hs : has_column "sentiment" df' = true) by apply existsb_with_column.
  assert (Hl : Forall (fun r => is_sentiment_label (sentiment r) = true) (rows df'))
    by apply label_rows_labeled.
  assert (Hlen : len df' = len df).
  { unfold len, df'. cbn [rows]. rewrite length_map. reflexivity. }
  split; [split; assumption|]. split; [exact Hlen|].
  eexists. split; [apply calculate_sentiment_metrics_returns; exact Hs|].
  cbn [sentiment_counts]. rewrite <- Hlen. apply labeled_counts_total. exact Hl.
Qed.

(** X16: in [analyze_direct] of main.py the aggregation returns exactly when
    the frame was labelled (content column and at least one review) or
    already carried a sentiment column; otherwise, as after an empty fetch,
    it raises [KeyError]. *)
Theorem analysis_returns_iff (df : DataFrame) (ad : option AppDetails) :
  (exists m,
     calculate_sentiment_metrics (label_reviews TextBlob_polarity df) ad = Returns m)
  <-> (has_column "content" df = true /\ rows df <> [])
      \/ has_column "sentiment" df = true.
Proof.
  split.
  - intros [m Hm].
    destruct (has_column "sentiment" df) eqn:Hs; [right; reflexivity|]. left.
    unfold label_reviews in Hm.
    destruct (has_column "content" df) eqn:Hc; cbn [andb] in Hm.
    + destruct (empty df) eqn:He; cbn [negb] in Hm.
      * rewrite calculate_sentiment_metrics_raises in Hm by exact Hs.
        discriminate Hm.
      * split; [reflexivity|apply empty_false_rows; exact He].
    + rewrite calculate_sentiment_metrics_raises in Hm by exact Hs.
      discriminate Hm.
  - intros [[Hc Hr]|Hs].
    + rewrite (label_reviews_runs df Hc Hr). eexists.
      apply calculate_sentiment_metrics_returns. apply existsb_with_column.
    + unfold label_reviews.
      destruct (has_column "content" df && negb (empty df))%bool.
      * eexists. apply calculate_sentiment_metrics_returns.
        apply existsb_with_column.
      * eexists. apply calculate_sentiment_metrics_returns. exact Hs.
Qed.

(** X17: in [analyze_direct] of update_to_main.py the frame is labelled on
    every path, so the aggregation always returns; when the reviews could
    not be scored (no content column) every one counts as Neutral and the
    composite score is 0. *)
Theorem analysis_update_always_returns (df : DataFrame) (ad : option AppDetails) :
  labeled_collection (label_reviews_update TextBlob_polarity df) /\
  exists m,
    calculate_sentiment_metrics (label_reviews_update TextBlob_polarity df) ad
    = Returns m /\
    (has_column "content" df = false -> rows df <> [] ->
     neutral_pct m == 100 /\ positive_pct m == 0 /\ negative_pct m == 0 /\
     app_rating_score m == 0).
Proof.
  assert (Hs : has_column "sentiment" (label_reviews_update TextBlob_polarity df)
               = true).
  { unfold label_reviews_update.
    destruct (has_column "content" df && negb (empty df))%bool;
      apply existsb_with_column. }
  split.
  - split; [exact Hs|]. unfold label_reviews_update.
    destruct (has_column "content" df && negb (empty df))%bool; cbn [rows].
    + apply label_rows_labeled.
    + apply Forall_map. apply Forall_forall. intros r _. reflexivity.
  - eexists. split; [apply calculate_sentiment_metrics_returns; exact Hs|].
    intros Hc Hr. cbn [positive_pct negative_pct neutral_pct app_rating_score].
    unfold label_reviews_update. rewrite Hc. cbn [andb rows].
    unfold len. cbn [rows]. rewrite !map_map. cbn [neutral_row sentiment].
    set (n := List.length (rows df)).
    assert (Hn : (0 < Z.of_nat n)%Z).
    { unfold n. destruct (rows df); [contradiction|]. cbn [List.length]. lia. }
    destruct (neutral_series_counts (rows df)) as (HP & HN & HU). fold n in HU.
    rewrite length_map. fold n. rewrite HP, HN, HU.
    assert (EP : pct_value 0 (Z.of_nat n) == 0) by apply pct_value_zero.
    assert (EU : pct_value (Z.of_nat n) (Z.of_nat n) == 100).
    { unfold pct_value. destruct (0 <? Z.of_nat n)%Z eqn:E;
        [|apply Z.ltb_ge in E; lia].
      field. apply inject_Z_pos_nonzero. exact Hn. }
    split; [exact EU|]. split; [exact EP|]. split; [exact EP|].
    unfold rating_value.
    destruct (0 <? 0 + 0 + Z.of_nat n)%Z; [|reflexivity].
    assert (Hg : Qgt_bool (pct_value 0 (Z.of_nat n) + pct_value 0 (Z.of_nat n)) 0
                 = false).
    { apply Qgt_bool_false. lra. }
    rewrite Hg.
    destruct (py_min_cases 100 (pct_value 0 (Z.of_nat n) + 0)) as [[_ Em]|[Hle _]];
      [rewrite Em; lra|exfalso; lra].
Qed.

End Pipeline.

Lemma constant_series_counts (lab : string) (series : list pyobj) :
  Forall (fun o => o = PyStr lab) series ->
  value_counts_get series lab = Z.of_nat (List.length series) /\
  (forall other, other <> lab -> value_counts_get series other = 0%Z).
Proof.
  unfold value_counts_get. induction 1 as [|o l Ho _ [IH1 IH2]].
  - split; [reflexivity|]. intros other _. reflexivity.
  - subst o. cbn [filter py_str_eqb]. split.
    + rewrite String.eqb_refl. cbn [List.length].
      apply Nat2Z.inj in IH1. rewrite IH1. reflexivity.
    + intros other Hne. destruct (String.eqb lab other) eqn:E.
      * apply String.eqb_eq in E. congruence.
      * apply IH2. exact Hne.
Qed.

Lemma pct_value_all (n : Z) : (0 < n)%Z -> pct_value n n == 100.
Proof.
  intros Hn. unfold pct_value.
  destruct (0 <? n)%Z eqn:E; [|apply Z.ltb_ge in E; lia].
  field. apply inject_Z_pos_nonzero. exact Hn.
Qed.

Section FlaggedReviews.

Variable TextBlob_polarity : string -> Q.

Lemma flagged_row_negative (r : Row) :
  gt_negative (content r) = true ->
  sentiment (label_row TextBlob_polarity r) = PyStr "Negative".
Proof.
  unfold label_row. cbn [sentiment]. intros H.
  destruct (content r) as [| |s|o]; try discriminate H.
  unfold gt_negative in H. cbv zeta in H.
  unfold analyze_sentiment. cbv zeta. rewrite H.
  rewrite label_default_override. reflexivity.
Qed.

(** X18: when every fetched review holds a curated keyword, the analysis
    reports 100 percent negative, no positive, a composite score of 0, and
    raises the risk flag for every threshold below 100. *)
Theorem all_flagged_reviews_are_risky
  (RISK_WARNING_SHORT : string) (df : DataFrame) (ad : option AppDetails)
  (threshold : Q) :
  has_column "content" df = true ->
  rows df <> [] ->
  Forall (fun r => gt_negative (content r) = true) (rows df) ->
  exists m,
    calculate_sentiment_metrics (label_reviews TextBlob_polarity df) ad = Returns m /\
    negative_pct m == 100 /\ positive_pct m == 0 /\ app_rating_score m == 0 /\
    (threshold < 100 ->
     fst (assess_risk RISK_WARNING_SHORT (negative_pct m) threshold) = true).
Proof.
  intros Hc Hr Hall. rewrite (label_reviews_runs TextBlob_polarity df Hc Hr).
  eexists. split.
  { apply calculate_sentiment_metrics_returns. apply existsb_with_column. }
  cbn [positive_pct negative_pct app_rating_score].
  set (df' := mkDataFrame _ _).
  assert (Hser : Forall (fun o => o = PyStr "Negative") (map sentiment (rows df'))).
  { unfold df'. cbn [rows]. rewrite map_map. apply Forall_map.
    eapply Forall_impl; [|exact Hall]. intros r H.
    apply flagged_row_negative. exact H. }
  destruct (constant_series_counts "Negative" _ Hser) as [HN H0].
  assert (HP : value_counts_get (map sentiment (rows df')) "Positive" = 0%Z)
    by (apply H0; discriminate).
  assert (Hlen : Z.of_nat (List.length (map sentiment (rows df'))) = len df').
  { unfold len. rewrite length_map. reflexivity. }
  assert (Hpos : (0 < len df')%Z).
  { unfold len, df'. cbn [rows]. rewrite length_map.
    destruct (rows df); [contradiction|]. cbn [List.length]. lia. }
  assert (EN : pct_value (value_counts_get (map sentiment (rows df')) "Negative")
                 (len df') == 100).
  { rewrite HN, Hlen. apply pct_value_all. exact Hpos. }
  split; [exact EN|]. split.
  { rewrite HP. apply pct_value_zero. }
  split.
  { apply aggregate_closed_zero_positive. exact HP. }
  intros Ht. unfold assess_risk. cbn [fst]. apply Qgt_bool_true.
  rewrite EN. exact Ht.
Qed.

End FlaggedReviews.

(** ** The comparison metrics *)

Section ComparisonFacts.

Variable TextBlob_polarity : string -> Q.

Lemma comparison_row_label_row (r : Row) :
  comparison_row TextBlob_polarity r = label_row TextBlob_polarity r.
Proof. reflexivity. Qed.

Lemma comparison_body_runs (fetched : DataFrame) :
  rows fetched <> [] ->
  has_column "content" fetched = true ->
  let df := label_reviews TextBlob_polarity fetched in
  let l := map sentiment (rows df) in
  let P := pct_value (value_counts_get l "Positive") (len df) in
  let N := pct_value (value_counts_get l "Negative") (len df) in
  let U := pct_value (value_counts_get l "Neutral") (len df) in
  get_sentiment_metrics_for_comparison TextBlob_polarity fetched
  = Returns (mkComparisonMetrics (len df) P N U
               (rating_value P N U
                  (value_counts_get l "Positive" + value_counts_get l "Negative"
                   + value_counts_get l "Neutral"))).
Proof.
  intros Hr Hc. rewrite (label_reviews_runs TextBlob_polarity fetched Hc Hr).
  cbv zeta.
  unfold get_sentiment_metrics_for_comparison, comparison_body, getitem.
  destruct (rows fetched) as [|x l] eqn:E; [contradiction|].
  rewrite Hc. cbn [bind].
  rewrite (map_ext _ _ (comparison_row_label_row)).
  rewrite calculate_sentiment_metrics_returns by apply existsb_with_column.
  reflexivity.
Qed.

(** X19: the comparison metrics are all zero when no review was fetched or
    the reviews have no content column; otherwise the total is the number
    of fetched reviews, and each of the three percentages and the rating
    lies between 0 and 100.  The function returns in every case. *)
Theorem comparison_metrics_spec (fetched : DataFrame) :
  exists cm,
    get_sentiment_metrics_for_comparison TextBlob_polarity fetched = Returns cm /\
    (rows fetched = [] \/ has_column "content" fetched = false ->
     cm = zero_comparison) /\
    (rows fetched <> [] -> has_column "content" fetched = true ->
     cm_total cm = len fetched /\
     0 <= cm_positive_pct cm <= 100 /\
     0 <= cm_negative_pct cm <= 100 /\
     0 <= cm_neutral_pct cm <= 100 /\
     0 <= cm_app_rating_score cm <= 100).
Proof.
  destruct (rows fetched) as [|x l] eqn:E.
  - exists zero_comparison.
    unfold get_sentiment_metrics_for_comparison, comparison_body. rewrite E.
    split; [reflexivity|]. split; [reflexivity|]. intros H. contradiction.
  - destruct (has_column "content" fetched) eqn:Hc.
    + assert (Hr : rows fetched <> []) by (rewrite E; discriminate).
      eexists. split; [apply comparison_body_runs; assumption|].
      split; [intros [H|H]; discriminate H|]. intros _ _.
      cbn [cm_total cm_positive_pct cm_negative_pct cm_neutral_pct
           cm_app_rating_score].
      rewrite (label_reviews_runs TextBlob_polarity fetched Hc Hr).
      set (df := mkDataFrame _ _).
      split; [unfold len, df; cbn [rows]; rewrite length_map, E; reflexivity|].
      destruct (pct_closed_bounds df) as (HP & HN & HU & Hs).
      destruct (rating_closed_between df) as [Hlo Hhi].
      cbv zeta in *.
      split; [exact HP|]. split; [exact HN|]. split; [exact HU|].
      destruct HP as [HP0 _]. destruct HN as [HN0 _]. split; lra.
    + exists zero_comparison.
      unfold get_sentiment_metrics_for_comparison, comparison_body, getitem.
      rewrite E, Hc. split; [reflexivity|]. split; [reflexivity|].
      intros _ H. discriminate H.
Qed.

(** X20: on the same fetched reviews the comparison page shows the figures
    of the analysis page: its percentages and rating are those the
    aggregation returns on the frame labelled by [analyze_direct]. *)
Theorem comparison_agrees_with_analysis (fetched : DataFrame) :
  rows fetched <> [] ->
  has_column "content" fetched = true ->
  exists cm m,
    get_sentiment_metrics_for_comparison TextBlob_polarity fetched = Returns cm /\
    calculate_sentiment_metrics (label_reviews TextBlob_polarity fetched) None
    = Returns m /\
    cm_positive_pct cm = positive_pct m /\
    cm_negative_pct cm = negative_pct m /\
    cm_neutral_pct cm = neutral_pct m /\
    cm_app_rating_score cm = app_rating_score m.
Proof.
  intros Hr Hc. do 2 eexists.
  split; [apply comparison_body_runs; assumption|].
  split.
  - apply calculate_sentiment_metrics_returns.
    rewrite (label_reviews_runs TextBlob_polarity fetched Hc Hr).
    apply existsb_with_column.
  - repeat split; reflexivity.
Qed.

End ComparisonFacts.

(** ** [extract_app_id] *)

Lemma take_id_all_id (s : string) : all_id (take_id s) = true.
Proof.
  induction s as [|c s IH]; [reflexivity|].
  cbn [take_id]. destruct (is_id_char c) eqn:E; [|reflexivity].
  cbn [all_id]. rewrite E, IH. reflexivity.
Qed.

Lemma group_here_some (m s g : string) :
  group_here m s = Some g -> g <> EmptyString /\ all_id g = true.
Proof.
  unfold group_here. destruct (strip_prefix m s) as [rest|]; [|discriminate].
  pose proof (take_id_all_id rest) as Ha.
  destruct (take_id rest) as [|c t]; [discriminate|].
  intros H. injection H as <-. split; [discriminate|exact Ha].
Qed.

Lemma search_group_some (m s g : string) :
  search_group m s = Some g -> g <> EmptyString /\ all_id g = true.
Proof.
  induction s as [|c s IH]; cbn [search_group].
  - destruct (group_here m EmptyString) eqn:E; [|discriminate].
    intros H. injection H as <-. exact (group_here_some _ _ _ E).
  - destruct (group_here m (String c s)) eqn:E; [|exact IH].
    intros H. injection H as <-. exact (group_here_some _ _ _ E).
Qed.

Lemma segment_here_some (s g : string) :
  segment_here s = Some g -> g <> EmptyString /\ all_id g = true.
Proof.
  unfold segment_here. destruct (strip_prefix "/" s) as [rest|]; [|discriminate].
  pose proof (take_id_all_id rest) as Ha.
  destruct (take_id rest) as [|c t]; [discriminate|].
  match goal with |- (if ?b then _ else _) = _ -> _ => destruct b end;
    [|discriminate].
  intros H. injection H as <-. split; [discriminate|exact Ha].
Qed.

Lemma search_segment_some (s g : string) :
  search_segment s = Some g -> g <> EmptyString /\ all_id g = true.
Proof.
  induction s as [|c s IH]; cbn [search_segment].
  - destruct (segment_here EmptyString) eqn:E; [|discriminate].
    intros H. injection H as <-. exact (segment_here_some _ _ E).
  - destruct (segment_here (String c s)) eqn:E; [|exact IH].
    intros H. injection H as <-. exact (segment_here_some _ _ E).
Qed.

Lemma strip_prefix_all_id (m s : string) :
  all_id s = true -> all_id m = false -> strip_prefix m s = None.
Proof.
  revert s. induction m as [|a m IH]; intros s Hs Hm; [discriminate Hm|].
  destruct s as [|b s]; [reflexivity|].
  cbn [strip_prefix]. destruct (Ascii.eqb a b) eqn:E; [|reflexivity].
  apply Ascii.eqb_eq in E. subst b.
  cbn [all_id] in Hs, Hm. apply andb_true_iff in Hs. destruct Hs as [Ha Hs].
  rewrite Ha in Hm. cbn [andb] in Hm. apply IH; assumption.
Qed.

Lemma search_group_all_id (m s : string) :
  all_id s = true -> all_id m = false -> search_group m s = None.
Proof.
  intros Hs Hm. induction s as [|c s IH]; cbn [search_group]; unfold group_here;
    rewrite (strip_prefix_all_id m _ Hs Hm); [reflexivity|].
  apply IH. cbn [all_id] in Hs. apply andb_true_iff in Hs. apply Hs.
Qed.

Lemma search_segment_all_id (s : string) :
  all_id s = true -> search_segment s = None.
Proof.
  intros Hs. induction s as [|c s IH]; cbn [search_segment]; unfold segment_here;
    rewrite (strip_prefix_all_id "/" _ Hs eq_refl); [reflexivity|].
  apply IH. cbn [all_id] in Hs. apply andb_true_iff in Hs. apply Hs.
Qed.

Lemma extract_app_id_all_id (s : string) : all_id s = true -> extract_app_id s = s.
Proof.
  intros Hs. unfold extract_app_id.
  rewrite (search_group_all_id "id=" s Hs eq_refl).
  rewrite (search_group_all_id "=" s Hs eq_refl).
  rewrite (search_segment_all_id s Hs).
  destruct (contains "play.google.com" s);
    destruct (contains "." s && negb (contains " " s))%bool; reflexivity.
Qed.

Lemma extract_app_id_cases (x : string) :
  extract_app_id x = x \/
  (extract_app_id x <> EmptyString /\ all_id (extract_app_id x) = true).
Proof.
  unfold extract_app_id.
  destruct (if contains "play.google.com" x then search_group "id=" x else None)
    as [g|] eqn:E1.
  { right. destruct (contains "play.google.com" x); [|discriminate E1].
    exact (search_group_some _ _ _ E1). }
  destruct (contains "." x && negb (contains " " x))%bool; [left; reflexivity|].
  destruct (search_segment x) as [g|] eqn:E2.
  { right. exact (search_segment_some _ _ E2). }
  destruct (search_group "=" x) as [g|] eqn:E3.
  { right. exact (search_group_some _ _ _ E3). }
  left. reflexivity.
Qed.

(** X21: extracting is idempotent: what [extract_app_id] returns is returned
    unchanged when given to it again. *)
Theorem extract_app_id_idempotent (x : string) :
  extract_app_id (extract_app_id x) = extract_app_id x.
Proof.
  destruct (extract_app_id_cases x) as [E|[_ Ha]].
  - rewrite E. exact E.
  - apply extract_app_id_all_id. exact Ha.
Qed.

(** X22: the result is either the input itself or a non-empty string made
    only of letters, digits, dots and underscores; an input of that last
    kind, and a dotted input without a space that does not mention
    play.google.com, come back unchanged. *)
Theorem extract_app_id_result (x : string) :
  (extract_app_id x = x \/
   (extract_app_id x <> EmptyString /\ all_id (extract_app_id x) = true)) /\
  (all_id x = true -> extract_app_id x = x) /\
  (contains "." x = true -> contains " " x = false ->
   contains "play.google.com" x = false -> extract_app_id x = x).
Proof.
  split; [apply extract_app_id_cases|]. split; [apply extract_app_id_all_id|].
  intros Hd Hs Hp. unfold extract_app_id. rewrite Hp, Hd, Hs. reflexivity.
Qed.

Lemma take_id_app (a b : string) :
  all_id a = true -> take_id (a ++ b) = (a ++ take_id b)%string.
Proof.
  induction a as [|c a IH]; intros Ha; [reflexivity|].
  cbn [all_id] in Ha. apply andb_true_iff in Ha. destruct Ha as [Hc Ha].
  cbn [append take_id]. rewrite Hc, (IH Ha). reflexivity.
Qed.

Lemma append_empty_r (a : string) : (a ++ EmptyString)%string = a.
Proof. induction a as [|c a IH]; [reflexivity|]. cbn [append]. rewrite IH. reflexivity. Qed.

Lemma length_append (a b : string) :
  String.length (a ++ b) = (String.length a + String.length b)%nat.
Proof. induction a as [|c a IH]; [reflexivity|]. cbn [append String.length]. rewrite IH. reflexivity. Qed.

(** X23: from a Play Store details link the package name is extracted: the
    run of identifier characters that follows [id=], up to the first other
    character; such a link is never taken for an app id by the search
    route. *)
Theorem extract_app_id_play_link (pkg rest : string) :
  pkg <> EmptyString ->
  all_id pkg = true ->
  take_id rest = EmptyString ->
  let link := ("https://play.google.com/store/apps/details?id=" ++ pkg ++ rest)%string in
  extract_app_id link = pkg /\ looks_like_app_id link = false.
Proof.
  intros Hne Ha Hr link.
  assert (Hp : contains "play.google.com" link = true).
  { change link with ("https://" ++ "play.google.com"
                      ++ ("/store/apps/details?id=" ++ pkg ++ rest))%string.
    apply contains_app. }
  assert (Hg : search_group "id=" link = Some pkg).
  { unfold link. cbn [append search_group group_here strip_prefix Ascii.eqb Bool.eqb].
    rewrite (take_id_app pkg rest Ha), Hr, append_empty_r.
    destruct pkg; [contradiction|reflexivity]. }
  assert (He : extract_app_id link = pkg).
  { unfold extract_app_id. rewrite Hp, Hg. reflexivity. }
  split; [exact He|].
  unfold looks_like_app_id. rewrite He.
  destruct (String.eqb pkg link) eqn:E; [|apply andb_false_r].
  apply String.eqb_eq in E. apply (f_equal String.length) in E.
  unfold link in E. rewrite !length_append in E. cbn [String.length] in E. lia.
Qed.

(** ** The comparison list *)

Lemma existsb_ids (app_id : string) (l : list CompareEntry) :
  existsb (fun app => String.eqb (ce_app_id app) app_id) l = false ->
  ~ In app_id (map ce_app_id l).
Proof.
  intros H Hin. apply in_map_iff in Hin. destruct Hin as (e & He & Hin).
  assert (Ht : existsb (fun app => String.eqb (ce_app_id app) app_id) l = true).
  { apply existsb_exists. exists e. split; [exact Hin|].
    rewrite He. apply String.eqb_refl. }
  congruence.
Qed.

Lemma pop_at_split {A : Type} (i : nat) (l : list A) :
  (i < List.length l)%nat ->
  exists x, nth_error l i = Some x /\
            l = (firstn i l ++ x :: skipn (S i) l)%list.
Proof.
  revert l. induction i as [|i IH]; intros l Hi.
  - destruct l as [|x l]; [cbn in Hi; lia|]. exists x. split; reflexivity.
  - destruct l as [|y l]; [cbn in Hi; lia|].
    cbn [List.length] in Hi. destruct (IH l) as (x & Hx & Hl); [lia|].
    exists x. split; [exact Hx|].
    cbn [firstn skipn app]. f_equal. exact Hl.
Qed.

Lemma pop_at_length {A : Type} (i : nat) (l : list A) :
  (i < List.length l)%nat -> S (List.length (pop_at i l)) = List.length l.
Proof.
  intros Hi. destruct (pop_at_split i l Hi) as (x & _ & Hl).
  rewrite Hl at 2. unfold pop_at. rewrite !length_app. cbn [List.length]. lia.
Qed.

Lemma pop_at_map {A B : Type} (f : A -> B) (i : nat) (l : list A) :
  map f (pop_at i l) = pop_at i (map f l).
Proof. unfold pop_at. rewrite map_app, firstn_map, skipn_map. reflexivity. Qed.

Lemma pop_at_NoDup {A : Type} (i : nat) (l : list A) :
  (i < List.length l)%nat -> NoDup l ->
  NoDup (pop_at i l) /\
  forall x, nth_error l i = Some x -> ~ In x (pop_at i l).
Proof.
  intros Hi Hn. destruct (pop_at_split i l Hi) as (x & Hx & Hl).
  rewrite Hl in Hn. split.
  - exact (NoDup_remove_1 _ _ _ Hn).
  - intros y Hy. rewrite Hx in Hy. injection Hy as <-.
    exact (NoDup_remove_2 _ _ _ Hn).
Qed.

Lemma add_to_compare_invariant (s : option (list CompareEntry))
  (app_id : string) (d : option AppDetails) :
  compare_invariant s -> compare_invariant (fst (add_to_compare s app_id d)).
Proof.
  intros [Hl Hn]. unfold compare_invariant, add_to_compare.
  destruct d as [d|]; [|split; assumption].
  cbn [fst compare_list]. fold (compare_list s).
  destruct (existsb (fun app => String.eqb (ce_app_id app) app_id)
              (compare_list s)) eqn:E; cbn [negb]; [split; assumption|].
  destruct (Nat.ltb (List.length (compare_list s)) 2) eqn:El;
    [|split; assumption].
  apply Nat.ltb_lt in El. split.
  - rewrite length_app. cbn [List.length]. lia.
  - rewrite map_app. cbn [map ce_app_id].
    apply NoDup_app; [exact Hn|repeat constructor; intros []|].
    intros x Hx [<-|[]]. exact (existsb_ids _ _ E Hx).
Qed.

Lemma remove_from_compare_invariant (s : option (list CompareEntry)) (index : Z) :
  compare_invariant s -> compare_invariant (remove_from_compare s index).
Proof.
  intros [Hl Hn]. unfold compare_invariant, remove_from_compare.
  destruct s as [l|]; [|split; assumption]. cbn [compare_list] in *.
  destruct ((0 <=? index)%Z && (index <? Z.of_nat (List.length l))%Z)%bool eqn:E;
    [|split; assumption].
  apply andb_true_iff in E. destruct E as [E1 E2].
  apply Z.leb_le in E1. apply Z.ltb_lt in E2.
  assert (Hi : (Z.to_nat index < List.length l)%nat) by lia.
  cbn [compare_list]. split.
  - pose proof (pop_at_length _ l Hi). lia.
  - rewrite pop_at_map. apply pop_at_NoDup; [rewrite length_map; exact Hi|exact Hn].
Qed.

Lemma compare_reachable_invariant (s : option (list CompareEntry)) :
  compare_reachable s -> compare_invariant s.
Proof.
  induction 1 as [|s r _ IH].
  - split; [cbn; lia|constructor].
  - destruct r as [app_id d|index]; cbn [compare_step].
    + apply add_to_compare_invariant. exact IH.
    + apply remove_from_compare_invariant. exact IH.
Qed.

(** X24: whatever sequence of add and remove requests a session has seen,
    its comparison list holds at most two apps and no app twice. *)
Theorem compare_list_invariant (s : option (list CompareEntry)) :
  compare_reachable s ->
  (List.length (compare_list s) <= 2)%nat /\
  NoDup (map ce_app_id (compare_list s)).
Proof. intros H. exact (compare_reachable_invariant s H). Qed.

Lemma existsb_app_id_last (l : list CompareEntry) (app_id : string) (d : AppDetails) :
  existsb (fun app => String.eqb (ce_app_id app) app_id)
          (l ++ [mkCompareEntry app_id d]) = true.
Proof.
  rewrite existsb_app. cbn [existsb ce_app_id]. rewrite String.eqb_refl.
  rewrite orb_true_r. reflexivity.
Qed.

(** X25: adding an app that was just added changes nothing, a list of two
    refuses any further app, and the request leads to the comparison page
    exactly when the details were found and the list then holds two apps. *)
Theorem add_to_compare_idempotent (s : option (list CompareEntry))
  (app_id : string) (d : AppDetails) (d' : option AppDetails) :
  fst (add_to_compare (fst (add_to_compare s app_id (Some d))) app_id d')
  = fst (add_to_compare s app_id (Some d)) /\
  (List.length (compare_list s) = 2%nat ->
   compare_list (fst (add_to_compare s app_id d')) = compare_list s) /\
  (snd (add_to_compare s app_id d') = ToCompare
   <-> d' <> None /\
       List.length (compare_list (fst (add_to_compare s app_id d'))) = 2%nat).
Proof.
  split; [|split].
  - unfold add_to_compare at 2 3. cbn [fst]. fold (compare_list s).
    set (apps := compare_list s).
    destruct (existsb (fun app => String.eqb (ce_app_id app) app_id) apps) eqn:E;
      cbn [negb].
    + unfold add_to_compare. destruct d' as [d'|]; [|reflexivity].
      cbn [fst]. rewrite E. reflexivity.
    + destruct (Nat.ltb (List.length apps) 2) eqn:El.
      * unfold add_to_compare. destruct d' as [d'|]; [|reflexivity].
        cbn [fst].
        rewrite (existsb_app_id_last apps app_id d).
        reflexivity.
      * unfold add_to_compare. destruct d' as [d'|]; [|reflexivity].
        cbn [fst]. rewrite E, El. reflexivity.
  - intros H2. unfold add_to_compare. destruct d' as [d'|]; [|reflexivity].
    cbn [fst compare_list]. fold (compare_list s). rewrite H2.
    destruct (existsb _ (compare_list s)); reflexivity.
  - unfold add_to_compare. destruct d' as [d'|]; cbn [fst snd compare_list].
    + match goal with
      | |- (if Nat.eqb ?n 2 then _ else _) = _ <-> _ =>
          destruct (Nat.eqb n 2) eqn:E
      end.
      * apply Nat.eqb_eq in E. split; [|reflexivity].
        intros _. split; [discriminate|exact E].
      * apply Nat.eqb_neq in E. split; [discriminate|]. intros [_ H]. contradiction.
    + split; [discriminate|]. intros [H _]. contradiction.
Qed.

(** X26: removing at an index in range takes exactly that app out of a
    reachable list: the list is one shorter and no longer holds its
    identifier; an index out of range leaves the session as it was. *)
Theorem remove_from_compare_removes (s : option (list CompareEntry))
  (index : Z) (e : CompareEntry) :
  compare_reachable s ->
  ((0 <= index)%Z ->
   nth_error (compare_list s) (Z.to_nat index) = Some e ->
   S (List.length (compare_list (remove_from_compare s index)))
   = List.length (compare_list s) /\
   ~ In (ce_app_id e)
        (map ce_app_id (compare_list (remove_from_compare s index)))) /\
  ((index < 0)%Z \/ (Z.of_nat (List.length (compare_list s)) <= index)%Z ->
   remove_from_compare s index = s).
Proof.
  intros Hreach. destruct (compare_reachable_invariant s Hreach) as [_ Hn].
  split.
  - intros H0 Hnth.
    assert (Hi : (Z.to_nat index < List.length (compare_list s))%nat).
    { apply nth_error_Some. rewrite Hnth. discriminate. }
    destruct s as [l|]; [|cbn in Hi; lia].
    cbn [compare_list] in *. unfold remove_from_compare.
    assert (E : ((0 <=? index)%Z && (index <? Z.of_nat (List.length l))%Z)%bool
                = true).
    { apply andb_true_iff. split; [apply Z.leb_le|apply Z.ltb_lt]; lia. }
    rewrite E. cbn [compare_list]. split; [apply pop_at_length; exact Hi|].
    rewrite pop_at_map.
    apply (pop_at_NoDup (Z.to_nat index) (map ce_app_id l));
      [rewrite length_map; exact Hi|exact Hn|].
    rewrite nth_error_map, Hnth. reflexivity.
  - intros H. destruct s as [l|]; [|reflexivity].
    cbn [compare_list] in H. unfold remove_from_compare.
    destruct ((0 <=? index)%Z && (index <? Z.of_nat (List.length l))%Z)%bool eqn:E;
      [|reflexivity].
    apply andb_true_iff in E. destruct E as [E1 E2].
    apply Z.leb_le in E1. apply Z.ltb_lt in E2. lia.
Qed.

(** ** The stored review count *)

(** X27: whatever the form sends, the review count the search route stores
    lies between 10 and 1000; a count in that range is stored as it is, an
    unreadable one is stored as 200, and storing is monotone and
    idempotent. *)
Theorem stored_max_reviews_range (field : option Z) (a b : Z) :
  (10 <= stored_max_reviews (parsed_max_reviews field) <= 1000)%Z /\
  (field = None -> stored_max_reviews (parsed_max_reviews field) = 200%Z) /\
  ((10 <= a <= 1000)%Z -> stored_max_reviews a = a) /\
  ((a <= b)%Z -> (stored_max_reviews a <= stored_max_reviews b)%Z) /\
  stored_max_reviews (stored_max_reviews a) = stored_max_reviews a.
Proof.
  unfold stored_max_reviews. repeat split; try lia.
  intros ->. reflexivity.
Qed.

(** ** Instances of the further properties *)

Lemma score_color_flags_risk_witness :
  fst (assess_risk Config.RISK_WARNING_SHORT 45 30) = true /\
  get_score_color 45 30 = "danger".
Proof.
  split; [reflexivity|].
  apply (proj2 (score_color_flags_risk Config.RISK_WARNING_SHORT 45 30)).
  reflexivity.
Defined.

Lemma score_color_monotone_witness :
  25 <= 45 /\
  (severity (get_score_color 25 30) <= severity (get_score_color 45 30))%nat.
Proof.
  assert (H : 25 <= 45) by discriminate.
  split; [exact H|]. exact (score_color_monotone 25 45 30 H).
Defined.

Lemma score_color_warning_positive_witness :
  get_score_color 25 30 = "warning" /\ 0 < 30 /\ 0 < 25.
Proof.
  split; [reflexivity|]. exact (score_color_warning_positive 25 30 eq_refl).
Defined.

Lemma aggregate_returns_iff_column_witness :
  has_column "sentiment" sample_labeled = true /\
  exists m, calculate_sentiment_metrics sample_labeled None = Returns m.
Proof.
  split; [reflexivity|].
  apply (proj2 (proj1 (aggregate_returns_iff_column sample_labeled None))).
  reflexivity.
Defined.

Lemma percentages_bounded_witness :
  has_column "sentiment" sample_labeled = true /\
  exists m, calculate_sentiment_metrics sample_labeled None = Returns m /\
    0 <= negative_pct m <= 100 /\
    (sentiment_counts m "Positive" + sentiment_counts m "Negative"
     + sentiment_counts m "Neutral" <= 3)%Z.
Proof.
  split; [reflexivity|].
  destruct (percentages_bounded sample_labeled None eq_refl)
    as (m & Hm & _ & Hn & _ & _ & _ & _ & Hs).
  exists m. split; [exact Hm|]. split; [exact Hn|exact Hs].
Defined.

Lemma composite_between_witness :
  has_column "sentiment" sample_labeled = true /\
  exists m, calculate_sentiment_metrics sample_labeled None = Returns m /\
    positive_pct m <= app_rating_score m /\
    app_rating_score m <= positive_pct m + neutral_pct m.
Proof.
  split; [reflexivity|]. exact (composite_between sample_labeled None eq_refl).
Defined.

Lemma composite_extremes_witness :
  has_column "sentiment" cheerful_labeled = true /\
  exists m, calculate_sentiment_metrics cheerful_labeled None = Returns m /\
    sentiment_counts m "Negative" = 0%Z /\
    (0 < sentiment_counts m "Positive")%Z /\
    app_rating_score m == Qmin 100 (positive_pct m + neutral_pct m).
Proof.
  split; [reflexivity|].
  destruct (composite_extremes cheerful_labeled None eq_refl) as (m & Hm & _ & H).
  exists m. split; [exact Hm|].
  assert (Hc : sentiment_counts m "Negative" = 0%Z /\
               (0 < sentiment_counts m "Positive")%Z).
  { rewrite calculate_sentiment_metrics_returns in Hm by reflexivity.
    apply Returns_inj in Hm. rewrite <- Hm. split; reflexivity. }
  destruct Hc as [Hn Hp]. split; [exact Hn|]. split; [exact Hp|].
  exact (H Hn Hp).
Defined.

Lemma sample_sorted_permutation :
  Permutation (rows sample_labeled) (rows sample_sorted).
Proof. apply Permutation_rev. Qed.

Lemma aggregate_order_independent_witness :
  Permutation (rows sample_labeled) (rows sample_sorted) /\
  has_column "sentiment" sample_labeled = true /\
  has_column "sentiment" sample_sorted = true /\
  exists m1 m2,
    calculate_sentiment_metrics sample_labeled None = Returns m1 /\
    calculate_sentiment_metrics sample_sorted None = Returns m2 /\
    negative_pct m1 = negative_pct m2 /\
    app_rating_score m1 = app_rating_score m2.
Proof.
  split; [exact sample_sorted_permutation|]. split; [reflexivity|].
  split; [reflexivity|].
  destruct (aggregate_order_independent sample_labeled sample_sorted None
              sample_sorted_permutation eq_refl eq_refl)
    as (m1 & m2 & H1 & H2 & _ & _ & Hn & _ & Hs & _).
  exists m1, m2. repeat split; assumption.
Defined.

Lemma predicted_negative_is_negative_count_witness :
  has_column "content" sample_labeled = true /\
  has_column "sentiment" sample_labeled = true /\
  exists r m,
    compute_classification_metrics (Some sample_labeled) DEFAULT_SAMPLE_EACH
    = Returns r /\
    calculate_sentiment_metrics sample_labeled None = Returns m /\
    (tp (confusion r) + fp (confusion r))%Z = sentiment_counts m "Negative".
Proof.
  split; [reflexivity|]. split; [reflexivity|].
  exact (predicted_negative_is_negative_count sample_labeled None
           DEFAULT_SAMPLE_EACH eq_refl eq_refl).
Defined.

Lemma classification_order_independent_witness :
  Permutation (rows sample_labeled) (rows sample_sorted) /\
  has_column "content" sample_labeled = true /\
  has_column "sentiment" sample_labeled = true /\
  has_column "content" sample_sorted = true /\
  has_column "sentiment" sample_sorted = true /\
  exists r1 r2,
    compute_classification_metrics (Some sample_labeled) DEFAULT_SAMPLE_EACH
    = Returns r1 /\
    compute_classification_metrics (Some sample_sorted) DEFAULT_SAMPLE_EACH
    = Returns r2 /\
    confusion r1 = confusion r2.
Proof.
  split; [exact sample_sorted_permutation|].
  split; [reflexivity|]. split; [reflexivity|].
  split; [reflexivity|]. split; [reflexivity|].
  destruct (classification_order_independent sample_labeled sample_sorted
              DEFAULT_SAMPLE_EACH sample_sorted_permutation
              eq_refl eq_refl eq_refl eq_refl)
    as (r1 & r2 & H1 & H2 & Hc & _).
  exists r1, r2. repeat split; assumption.
Defined.

Lemma detect_risk_keywords_agrees_witness :
  detect_risk_keywords (PyStr "Total SCAM") <> [] /\
  analyze_sentiment sample_polarity (PyStr "Total SCAM") = -0.8.
Proof.
  assert (H : detect_risk_keywords (PyStr "Total SCAM") <> []) by discriminate.
  split; [exact H|].
  destruct (detect_risk_keywords_agrees sample_polarity (PyStr "Total SCAM"))
    as (_ & Hk & _).
  exact (Hk H).
Defined.

Lemma analysis_percentages_sum_witness :
  has_column "content" sample_reviews = true /\ rows sample_reviews <> [] /\
  exists m,
    calculate_sentiment_metrics (label_reviews sample_polarity sample_reviews) None
    = Returns m /\
    (sentiment_counts m "Positive" + sentiment_counts m "Negative"
     + sentiment_counts m "Neutral" = 3)%Z.
Proof.
  assert (Hr : rows sample_reviews <> []) by discriminate.
  split; [reflexivity|]. split; [exact Hr|].
  exact (proj2 (proj2 (analysis_percentages_sum sample_polarity sample_reviews
                         None eq_refl Hr))).
Defined.

Lemma analysis_returns_iff_witness :
  has_column "content" sample_reviews = true /\ rows sample_reviews <> [] /\
  exists m,
    calculate_sentiment_metrics (label_reviews sample_polarity sample_reviews) None
    = Returns m.
Proof.
  assert (Hr : rows sample_reviews <> []) by discriminate.
  split; [reflexivity|]. split; [exact Hr|].
  apply (proj2 (analysis_returns_iff sample_polarity sample_reviews None)).
  left. split; [reflexivity|exact Hr].
Defined.

Lemma analysis_update_always_returns_witness :
  has_column "content" unscored_reviews = false /\ rows unscored_reviews <> [] /\
  exists m,
    calculate_sentiment_metrics
      (label_reviews_update sample_polarity unscored_reviews) None = Returns m /\
    neutral_pct m == 100 /\ app_rating_score m == 0.
Proof.
  assert (Hr : rows unscored_reviews <> []) by discriminate.
  split; [reflexivity|]. split; [exact Hr|].
  destruct (analysis_update_always_returns sample_polarity unscored_reviews None)
    as (_ & m & Hm & H).
  exists m. split; [exact Hm|].
  destruct (H eq_refl Hr) as (Hu & _ & _ & Hs). split; assumption.
Defined.

Lemma all_flagged_reviews_are_risky_witness :
  has_column "content" flagged_reviews = true /\ rows flagged_reviews <> [] /\
  Forall (fun r => gt_negative (content r) = true) (rows flagged_reviews) /\
  Config.DEFAULT_FRAUD_THRESHOLD < 100 /\
  exists m,
    calculate_sentiment_metrics (label_reviews sample_polarity flagged_reviews) None
    = Returns m /\
    fst (assess_risk Config.RISK_WARNING_SHORT (negative_pct m)
           Config.DEFAULT_FRAUD_THRESHOLD) = true.
Proof.
  assert (Hr : rows flagged_reviews <> []) by discriminate.
  assert (Hf : Forall (fun r => gt_negative (content r) = true)
                 (rows flagged_reviews)) by (repeat constructor).
  assert (Ht : Config.DEFAULT_FRAUD_THRESHOLD < 100) by reflexivity.
  split; [reflexivity|]. split; [exact Hr|]. split; [exact Hf|].
  split; [exact Ht|].
  destruct (all_flagged_reviews_are_risky sample_polarity
              Config.RISK_WARNING_SHORT flagged_reviews None
              Config.DEFAULT_FRAUD_THRESHOLD eq_refl Hr Hf)
    as (m & Hm & _ & _ & _ & Hrisk).
  exists m. split; [exact Hm|exact (Hrisk Ht)].
Defined.

Lemma comparison_metrics_spec_witness :
  rows sample_reviews <> [] /\ has_column "content" sample_reviews = true /\
  exists cm,
    get_sentiment_metrics_for_comparison sample_polarity sample_reviews
    = Returns cm /\
    cm_total cm = 3%Z.
Proof.
  assert (Hr : rows sample_reviews <> []) by discriminate.
  split; [exact Hr|]. split; [reflexivity|].
  destruct (comparison_metrics_spec sample_polarity sample_reviews)
    as (cm & Hcm & _ & H).
  exists cm. split; [exact Hcm|]. exact (proj1 (H Hr eq_refl)).
Defined.

Lemma comparison_agrees_with_analysis_witness :
  rows sample_reviews <> [] /\ has_column "content" sample_reviews = true /\
  exists cm m,
    get_sentiment_metrics_for_comparison sample_polarity sample_reviews
    = Returns cm /\
    calculate_sentiment_metrics (label_reviews sample_polarity sample_reviews) None
    = Returns m /\
    cm_negative_pct cm = negative_pct m.
Proof.
  assert (Hr : rows sample_reviews <> []) by discriminate.
  split; [exact Hr|]. split; [reflexivity|].
  destruct (comparison_agrees_with_analysis sample_polarity sample_reviews
              Hr eq_refl) as (cm & m & H1 & H2 & _ & Hn & _).
  exists cm, m. repeat split; assumption.
Defined.

Lemma extract_app_id_result_witness :
  all_id "com.whatsapp" = true /\ extract_app_id "com.whatsapp" = "com.whatsapp".
Proof.
  split; [reflexivity|].
  exact (proj1 (proj2 (extract_app_id_result "com.whatsapp")) eq_refl).
Defined.

Lemma extract_app_id_play_link_witness :
  "com.whatsapp" <> EmptyString /\ all_id "com.whatsapp" = true /\
  take_id "&hl=en" = EmptyString /\
  extract_app_id
    "https://play.google.com/store/apps/details?id=com.whatsapp&hl=en"
  = "com.whatsapp".
Proof.
  assert (Hn : "com.whatsapp" <> EmptyString) by discriminate.
  split; [exact Hn|]. split; [reflexivity|]. split; [reflexivity|].
  exact (proj1 (extract_app_id_play_link "com.whatsapp" "&hl=en" Hn eq_refl eq_refl)).
Defined.

Lemma sample_session_reachable : compare_reachable sample_session.
Proof. unfold sample_session. repeat constructor. Qed.

Lemma compare_list_invariant_witness :
  compare_reachable sample_session /\
  (List.length (compare_list sample_session) <= 2)%nat.
Proof.
  split; [exact sample_session_reachable|].
  exact (proj1 (compare_list_invariant sample_session sample_session_reachable)).
Defined.

Lemma add_to_compare_idempotent_witness :
  List.length (compare_list sample_session) = 2%nat /\
  compare_list (fst (add_to_compare sample_session "com.third.app"
                       (Some sample_details)))
  = compare_list sample_session.
Proof.
  split; [reflexivity|].
  destruct (add_to_compare_idempotent sample_session "com.third.app"
              sample_details (Some sample_details)) as (_ & H & _).
  exact (H eq_refl).
Defined.

Lemma remove_from_compare_removes_witness :
  compare_reachable sample_session /\ (0 <= 0)%Z /\
  nth_error (compare_list sample_session) (Z.to_nat 0)
  = Some (mkCompareEntry "com.first.app" sample_details) /\
  ~ In "com.first.app"
       (map ce_app_id (compare_list (remove_from_compare sample_session 0))).
Proof.
  assert (H0 : (0 <= 0)%Z) by discriminate.
  split; [exact sample_session_reachable|]. split; [exact H0|].
  split; [reflexivity|].
  destruct (remove_from_compare_removes sample_session 0
              (mkCompareEntry "com.first.app" sample_details)
              sample_session_reachable) as [H _].
  exact (proj2 (H H0 eq_refl)).
Defined.

Lemma stored_max_reviews_range_witness :
  (10 <= 50 <= 1000)%Z /\ stored_max_reviews 50 = 50%Z.
Proof.
  assert (H : (10 <= 50 <= 1000)%Z) by (split; discriminate).
  split; [exact H|].
  destruct (stored_max_reviews_range None 50 50) as (_ & _ & Hid & _).
  exact (Hid H).
Defined.
